(** * steam-grid-ripper: a shallow embedding of [steam-grid-ripper.py]

    The script reads the binary shortcut registry [shortcuts.vdf],
    normalises each record's [appid] to the decimal text of an unsigned
    32-bit value, downloads four artwork files for a chosen record and
    writes a JSON side file next to them.

    Python values, exceptions, the file system and the network are modelled
    explicitly:
    - a computation that may raise is an [Outcome];
    - a computation that also reads or changes the outside world is an [IO],
      a function from [World] to an [Outcome] and the [World] left behind
      (a change made before an exception is raised stays made);
    - [str] values are [string]s whose characters are the code points below
      256, [bytes] values are [list byte], [int] values are [Z], [float]
      values are a sign, a mantissa and a binary exponent, or a zero, an
      infinity or a NaN;
    - library routines whose text is not part of the script (the inside of
      a [repr], the UTF-8 decoder, [vdf.binary_load], [json.dump]) are fields
      of the class [Runtime]; nothing is assumed about them.

    Not modelled: file permissions, links between files, and the run-time
    limit CPython may put on the number of digits [int] and [str] convert.  File names given to [path_join] are
    taken to hold no path separator, as identifiers and the fixed names of
    the script do. *)

From Stdlib Require Import ZArith String Ascii List Decimal DecimalString DecimalZ.
From Stdlib.Strings Require Import Byte.
From Stdlib Require Import QArith.
From stdpp Require Import base option list gmap strings sorting.

Local Open Scope Z_scope.
Set Warnings "-register-all".

(** ** Exceptions and outcomes *)

(** The exception classes that the modelled operations raise.  All of them
    derive from Python's [Exception], so [except Exception] catches each. *)
Inductive exn : Type :=
| TypeError
| ValueError
| AttributeError
| IndexError
| OverflowError
| SyntaxError
| FileNotFoundError
| IsADirectoryError
| NotADirectoryError
| SameFileError
| ConnectionError
| ReadTimeout
| ChunkedEncodingError
| OSError (errno : Z).

Inductive Outcome (A : Type) : Type :=
| Ret (a : A)
| Raise (e : exn).
Arguments Ret {A} a.
Arguments Raise {A} e.

Definition bind {A B} (m : Outcome A) (k : A -> Outcome B) : Outcome B :=
  match m with
  | Ret a => k a
  | Raise e => Raise e
  end.

(** [try: m  except Exception: h] *)
Definition try_except {A} (m : Outcome A) (h : exn -> Outcome A) : Outcome A :=
  match m with
  | Ret a => Ret a
  | Raise e => h e
  end.

Definition returns {A} (m : Outcome A) : Prop := exists a, m = Ret a.

Declare Scope outcome_scope.
Delimit Scope outcome_scope with outcome.
Bind Scope outcome_scope with Outcome.
Notation "'let*' x ':=' m 'in' k" := (bind m (fun x => k))
  (at level 10, x name, m at level 200, k at level 200) : outcome_scope.
Local Open Scope outcome_scope.

(** ** Text: character classes, [strip], [isdigit] *)

Module PyStr.

Definition code (c : ascii) : N := N_of_ascii c.

Definition between (lo hi n : N) : bool := ((lo <=? n) && (n <=? hi))%N.

(** [str.isspace] on one character (code points below 256). *)
Definition isspace_char (c : ascii) : bool :=
  let n := code c in
  between 9 13 n || between 28 31 n || (n =? 32)%N || (n =? 133)%N
  || (n =? 160)%N.

(** [str.isdigit] on one character: the decimal digits and the
    superscripts one, two and three. *)
Definition isdigit_char (c : ascii) : bool :=
  let n := code c in
  between 48 57 n || (n =? 178)%N || (n =? 179)%N || (n =? 185)%N.

(** The blanks [int] skips around a literal given as [str]. *)
Definition int_space_text (c : ascii) : bool :=
  let n := code c in
  between 9 13 n || (n =? 32)%N || (n =? 133)%N || (n =? 160)%N.

(** The blanks [int] skips around a literal given as [bytes]. *)
Definition int_space_bytes (c : ascii) : bool :=
  let n := code c in between 9 13 n || (n =? 32)%N.

Fixpoint lstrip (sp : ascii -> bool) (s : string) : string :=
  match s with
  | EmptyString => EmptyString
  | String c r => if sp c then lstrip sp r else s
  end.

Fixpoint rstrip (sp : ascii -> bool) (s : string) : string :=
  match s with
  | EmptyString => EmptyString
  | String c r =>
      match rstrip sp r with
      | EmptyString => if sp c then EmptyString else String c EmptyString
      | r' => String c r'
      end
  end.

Definition strip_with (sp : ascii -> bool) (s : string) : string :=
  rstrip sp (lstrip sp s).

(** [s.strip()] *)
Definition strip (s : string) : string := strip_with isspace_char s.

Fixpoint all_chars (p : ascii -> bool) (s : string) : bool :=
  match s with
  | EmptyString => true
  | String c r => p c && all_chars p r
  end.

(** [s.isdigit()]: at least one character, and every character a digit. *)
Definition isdigit (s : string) : bool :=
  match s with
  | EmptyString => false
  | _ => all_chars isdigit_char s
  end.

End PyStr.

(** ** Integers: decimal text and integer literals *)

Module PyInt.

(** [str(z)] for an [int]: decimal digits, with a leading minus sign for
    a negative value. *)
Definition to_text (z : Z) : string := NilZero.string_of_int (Z.to_int z).

Definition decimal_digit (c : ascii) : option (uint -> uint) :=
  match c with
  | "0" => Some D0 | "1" => Some D1 | "2" => Some D2 | "3" => Some D3
  | "4" => Some D4 | "5" => Some D5 | "6" => Some D6 | "7" => Some D7
  | "8" => Some D8 | "9" => Some D9
  | _ => None
  end%char.

(** Digits of a literal: one or more digits, a single underscore allowed
    between two digits.  [after_digit] tells whether the previous
    character was a digit. *)
Fixpoint scan_digits (after_digit : bool) (s : string) : option uint :=
  match s with
  | EmptyString => if after_digit then Some Nil else None
  | String c r =>
      if Ascii.eqb c "_"%char then
        if after_digit then scan_digits false r else None
      else
        match decimal_digit c with
        | Some d => option_map d (scan_digits true r)
        | None => None
        end
  end.

(** [int(s)] in base ten: blanks around, an optional sign, the digits. *)
Definition of_literal (sp : ascii -> bool) (s : string) : Outcome Z :=
  let body := PyStr.strip_with sp s in
  let '(negative, digits) :=
    match body with
    | String "-" r => (true, r)
    | String "+" r => (false, r)
    | _ => (false, body)
    end in
  match scan_digits false digits with
  | Some u => Ret (if negative then - Z.of_uint u else Z.of_uint u)
  | None => Raise ValueError
  end.

Definition of_text (s : string) : Outcome Z :=
  of_literal PyStr.int_space_text s.

Definition u8 (b : byte) : Z := Z.of_N (Byte.to_N b).

(** [int.from_bytes(b, "little", signed=False)] *)
Fixpoint from_bytes_little (b : list byte) : Z :=
  match b with
  | [] => 0
  | x :: r => u8 x + 256 * from_bytes_little r
  end.

End PyInt.

(** ** Python values *)

Inductive Key : Type :=
| KStr (s : string)
| KBytes (b : list byte).

(** A [float]: a signed zero, a finite value [(-1)^negative * m * 2^e], an
    infinity or a NaN.  Every IEEE double is one of these (the converse is
    not needed: what is shown for all of them holds for the doubles). *)
Inductive PyFloat : Type :=
| FZero (negative : bool)
| FFinite (negative : bool) (m : positive) (e : Z)
| FInfinity (negative : bool)
| FNaN.

(** The values a parsed registry holds.  A [dict] is the list of its items
    in insertion order. *)
Inductive PyVal : Type :=
| VNone
| VInt (z : Z)
| VFloat (x : PyFloat)
| VBytes (b : list byte)
| VStr (s : string)
| VDict (d : list (Key * PyVal)).

Global Instance byte_eq_dec : EqDecision byte := Byte.byte_eq_dec.

Global Instance Key_eq_dec : EqDecision Key.
Proof. solve_decision. Defined.

(** Truth value of an object, as [or], [not] and [if] take it. *)
Definition truthy (v : PyVal) : bool :=
  match v with
  | VNone => false
  | VInt z => negb (z =? 0)
  | VFloat x => match x with FZero _ => false | _ => true end
  | VBytes b => match b with [] => false | _ => true end
  | VStr s => match s with EmptyString => false | _ => true end
  | VDict d => match d with [] => false | _ => true end
  end.

(** [a or b] on values already computed. *)
Definition py_or (a b : PyVal) : PyVal := if truthy a then a else b.

Fixpoint assoc (k : Key) (d : list (Key * PyVal)) : option PyVal :=
  match d with
  | [] => None
  | (k', v) :: r => if decide (k = k') then Some v else assoc k r
  end.

(** [d.get(k)]: the value stored under [k], or [None]. *)
Definition dict_get (d : list (Key * PyVal)) (k : Key) : PyVal :=
  match assoc k d with
  | Some v => v
  | None => VNone
  end.

(** [b"..."] literals of the script. *)
Definition bytes_of (s : string) : list byte := list_byte_of_string s.

(** [int(x)] for a [float]: the value with its fraction cut off, towards
    zero; an infinity and a NaN have none. *)
Definition float_trunc (x : PyFloat) : Outcome Z :=
  match x with
  | FZero _ => Ret 0
  | FFinite negative m e =>
      let magnitude := Z.shiftl (Z.pos m) e in
      Ret (if negative then - magnitude else magnitude)
  | FInfinity _ => Raise OverflowError
  | FNaN => Raise ValueError
  end.

(** ** JSON documents *)

Inductive Json : Type :=
| JInt (z : Z)
| JFloat (q : Q)
| JStr (s : string)
| JObj (members : list (string * Json)).

(** ** Library routines *)

Class Runtime : Type := {
  (** [repr] of a [dict] is an opening brace, the items, a closing brace:
      this is the text of the items *)
  repr_dict_items : list (Key * PyVal) -> string;
  (** [repr] of a [bytes] value is the letter b and a quoted literal: this is
      the quoted literal *)
  repr_bytes_literal : list byte -> string;
  (** [repr] of a [float] that is a zero or finite: the shortest decimal
      text that reads back as the same double *)
  repr_finite_float : PyFloat -> string;
  (** [b.decode("utf-8", "ignore")] *)
  decode_utf8_ignore : list byte -> string;
  (** [vdf.binary_load] on the content of a file *)
  vdf_binary_load : list byte -> Outcome PyVal;
  (** the text [json.dump(doc, f, indent=2)] writes *)
  json_dump_indent2 : Json -> string
}.

Section Normalizer.
Context {RT : Runtime}.

(** [str(v)] *)
Definition py_str (v : PyVal) : string :=
  match v with
  | VNone => "None"
  | VInt z => PyInt.to_text z
  | VFloat FNaN => "nan"
  | VFloat (FInfinity negative) => if negative then "-inf" else "inf"
  | VFloat x => repr_finite_float x
  | VStr s => s
  | VBytes b => "b" +:+ repr_bytes_literal b
  | VDict d => "{" +:+ repr_dict_items d +:+ "}"
  end.

(** [int(v)] *)
Definition py_int (v : PyVal) : Outcome Z :=
  match v with
  | VInt z => Ret z
  | VFloat x => float_trunc x
  | VStr s => PyInt.of_text s
  | VBytes b => PyInt.of_literal PyStr.int_space_bytes (string_of_list_byte b)
  | VNone | VDict _ => Raise TypeError
  end.

Definition mask32 : Z := 0xFFFFFFFF.

(** The last two [try] blocks of [normalize_appid_field]. *)
Definition normalize_as_int (raw : PyVal) : Outcome (option string) :=
  try_except
    (let* intval := py_int raw in
     Ret (Some (PyInt.to_text (Z.land intval mask32))))
    (fun _ =>
       try_except
         (let* intval := py_int (VStr (py_str raw)) in
          Ret (Some (PyInt.to_text intval)))
         (fun _ => Ret None)).

Definition normalize_appid_field (raw : PyVal) : Outcome (option string) :=
  match raw with
  | VNone => Ret None
  | VBytes b =>
      try_except
        (let* intval := Ret (PyInt.from_bytes_little b) in
         Ret (Some (PyInt.to_text (Z.land intval mask32))))
        (fun _ => normalize_as_int raw)
  | _ => normalize_as_int raw
  end.

End Normalizer.

(** ** The registry reader *)

(** One element of the list [read_shortcuts] returns: the [dict] with the
    keys ["appid"], ["AppName"], ["Exe"] and ["raw"]. *)
Record ShortcutEntry : Type := {
  appid : string;
  AppName : string;
  Exe : string;
  raw : PyVal
}.

(** [v.get(k)]: only a [dict] has the method. *)
Definition py_get (v : PyVal) (k : Key) : Outcome PyVal :=
  match v with
  | VDict d => Ret (dict_get d k)
  | _ => Raise AttributeError
  end.

(** [v.items()] *)
Definition py_items (v : PyVal) : Outcome (list (Key * PyVal)) :=
  match v with
  | VDict d => Ret d
  | _ => Raise AttributeError
  end.

(** [a or <b>], where the right operand is evaluated only when needed. *)
Definition or_else (a : PyVal) (b : Outcome PyVal) : Outcome PyVal :=
  if truthy a then Ret a else b.

(** [v.get(text_key) or v.get(bytes_key)] *)
Definition get_either (v : PyVal) (name : string) : Outcome PyVal :=
  let* a := py_get v (KStr name) in
  or_else a (py_get v (KBytes (bytes_of name))).

(** A file system: the nodes that exist, by path.  A path is the list of
    its components; [dir / name] adds one component (the names the script
    appends are an identifier followed by a fixed suffix). *)
Inductive Node : Type :=
| File (content : list byte)
| Dir.

Definition path_join (dir : list string) (name : string) : list string :=
  dir ++ [name].

Fixpoint join (sep : string) (parts : list string) : string :=
  match parts with
  | [] => EmptyString
  | [p] => p
  | p :: rest => p +:+ sep +:+ join sep rest
  end.

(** [str(p)] for an absolute path. *)
Definition path_text (p : list string) : string := "/" +:+ join "/" p.

Definition path_exists (fs : gmap (list string) Node) (p : list string) : bool :=
  match fs !! p with
  | Some _ => true
  | None => false
  end.

Definition is_dir (fs : gmap (list string) Node) (p : list string) : bool :=
  match fs !! p with
  | Some Dir => true
  | _ => false
  end.

(** [open(p, "rb")] followed by reading the whole file. *)
Definition read_file (fs : gmap (list string) Node) (p : list string)
  : Outcome (list byte) :=
  match fs !! p with
  | Some (File c) => Ret c
  | Some Dir => Raise IsADirectoryError
  | None => Raise FileNotFoundError
  end.

(** [data.get("shortcuts") or data.get(b"shortcuts") or {}] *)
Definition shortcuts_of (data : PyVal) : Outcome PyVal :=
  let* found := get_either data "shortcuts" in
  Ret (py_or found (VDict [])).

Section Registry.
Context {RT : Runtime}.

(** The text of a name or path field: [decode] for [bytes], [str] for
    anything else. *)
Definition field_text (v : PyVal) : string :=
  match v with
  | VBytes b => decode_utf8_ignore b
  | _ => py_str v
  end.

(** The body of the loop of [read_shortcuts]: [None] stands for
    [continue], [Some e] for [entries.append(e)]. *)
Definition read_entry (ent : PyVal) : Outcome (option ShortcutEntry) :=
  let* raw_appid := get_either ent "appid" in
  let* appid_s := normalize_appid_field raw_appid in
  let* name0 := get_either ent "AppName" in
  let raw_name := py_or name0 (VBytes []) in
  let* exe0 := get_either ent "Exe" in
  let raw_exe := py_or exe0 (VBytes []) in
  let name := field_text raw_name in
  let exe := field_text raw_exe in
  match appid_s with
  | None | Some EmptyString => Ret None
  | Some a => Ret (Some {| appid := a; AppName := name; Exe := exe; raw := ent |})
  end.

Fixpoint read_entries (items : list (Key * PyVal)) (entries : list ShortcutEntry)
  : Outcome (list ShortcutEntry) :=
  match items with
  | [] => Ret entries
  | (_, ent) :: rest =>
      let* step := read_entry ent in
      read_entries rest
        (match step with Some e => entries ++ [e] | None => entries end)
  end.

(** What [read_shortcuts] does with the parsed file. *)
Definition read_parsed (data : PyVal) : Outcome (list ShortcutEntry) :=
  let* shortcuts := shortcuts_of data in
  let* items := py_items shortcuts in
  read_entries items [].

Definition read_shortcuts (fs : gmap (list string) Node)
    (shortcuts_path : list string) : Outcome (list ShortcutEntry) :=
  if negb (path_exists fs shortcuts_path) then Ret []
  else
    let* content := read_file fs shortcuts_path in
    let* data := vdf_binary_load content in
    read_parsed data.

End Registry.

(** ** The directory resolver *)

Definition STEAM_USERDATA_BASE (home : list string) : list string :=
  home ++ ["Library"; "Application Support"; "Steam"; "userdata"].

(** The name under which [p] is an immediate child of [base], if it is. *)
Definition child_name (base p : list string) : option string :=
  match last p with
  | Some n => if decide (removelast p = base) then Some n else None
  | None => None
  end.

(** [base.iterdir()], as the names of the children, in the order the file
    system happens to give them. *)
Definition iterdir (fs : gmap (list string) Node) (base : list string)
  : Outcome (list string) :=
  match fs !! base with
  | None => Raise FileNotFoundError
  | Some (File _) => Raise NotADirectoryError
  | Some Dir => Ret (omap (child_name base) (map_to_list fs).*1)
  end.

(** [sorted] on sibling paths orders them by their names, character by
    character. *)
Definition sorted_names (names : list string) : list string :=
  merge_sort String.le names.

(** The [for] loop of [find_steam_userdata]. *)
Fixpoint first_account (fs : gmap (list string) Node) (base : list string)
    (entries : list string) : option (string * list string) :=
  match entries with
  | [] => None
  | name :: rest =>
      if is_dir fs (path_join base name) && PyStr.isdigit name
      then Some (name, path_join base name)
      else first_account fs base rest
  end.

(** [None] stands for the pair [(None, None)]. *)
Definition find_steam_userdata (home : list string)
    (fs : gmap (list string) Node) : Outcome (option (string * list string)) :=
  let base := STEAM_USERDATA_BASE home in
  if negb (path_exists fs base) then Ret None
  else
    let* entries := iterdir fs base in
    Ret (first_account fs base (sorted_names entries)).

(** ** The world: files, network, what the window shows *)

(** What [requests.get(url, stream=True)] hands back: the status line, the
    chunks [iter_content] yields and, when the transfer breaks, the
    exception raised after the last of them. *)
Record Response : Type := {
  status_code : Z;
  chunks : list (list byte);
  broken : option exn
}.

Record World : Type := {
  fs : gmap (list string) Node;
  (** how the network answers a request *)
  net : string -> Outcome Response;
  (** the requests sent so far, oldest first *)
  requests : list string;
  (** text of the status label *)
  status_text : string;
  (** warning boxes shown so far: title and message *)
  dialogs : list (string * string)
}.

Definition set_fs (f : gmap (list string) Node) (w : World) : World :=
  {| fs := f; net := net w; requests := requests w;
     status_text := status_text w; dialogs := dialogs w |}.

Definition log_request (url : string) (w : World) : World :=
  {| fs := fs w; net := net w; requests := requests w ++ [url];
     status_text := status_text w; dialogs := dialogs w |}.

Definition set_status (t : string) (w : World) : World :=
  {| fs := fs w; net := net w; requests := requests w;
     status_text := t; dialogs := dialogs w |}.

Definition add_dialog (title message : string) (w : World) : World :=
  {| fs := fs w; net := net w; requests := requests w;
     status_text := status_text w; dialogs := dialogs w ++ [(title, message)] |}.

Definition IO (A : Type) : Type := World -> Outcome A * World.

Definition io_ret {A} (a : A) : IO A := fun w => (Ret a, w).

Definition io_raise {A} (e : exn) : IO A := fun w => (Raise e, w).

Definition io_bind {A B} (m : IO A) (k : A -> IO B) : IO B :=
  fun w =>
    match m w with
    | (Ret a, w') => k a w'
    | (Raise e, w') => (Raise e, w')
    end.

(** [try: m  except Exception: h]; what [m] did before raising stays done. *)
Definition io_try {A} (m : IO A) (h : exn -> IO A) : IO A :=
  fun w =>
    match m w with
    | (Ret a, w') => (Ret a, w')
    | (Raise e, w') => h e w'
    end.

(** A file-system operation that either fails, changing nothing, or
    succeeds with a new file system. *)
Definition io_fs (op : gmap (list string) Node -> Outcome (gmap (list string) Node))
  : IO unit :=
  fun w =>
    match op (fs w) with
    | Ret f => (Ret tt, set_fs f w)
    | Raise e => (Raise e, w)
    end.

Declare Scope io_scope.
Delimit Scope io_scope with io.
Bind Scope io_scope with IO.
Notation "'let*' x ':=' m 'in' k" := (io_bind m (fun x => k))
  (at level 10, x name, m at level 200, k at level 200) : io_scope.
Notation "m ';;' k" := (io_bind m (fun _ => k))
  (at level 100, k at level 200, right associativity) : io_scope.

Definition parent (p : list string) : list string := removelast p.

(** [open(p, "w")] or [open(p, "wb")]: the file is created, or emptied. *)
Definition open_for_writing (p : list string) (f : gmap (list string) Node)
  : Outcome (gmap (list string) Node) :=
  match f !! p with
  | Some Dir => Raise IsADirectoryError
  | _ =>
      match f !! parent p with
      | Some Dir => Ret (<[p := File []]> f)
      | Some (File _) => Raise NotADirectoryError
      | None => Raise FileNotFoundError
      end
  end.

Definition append_content (data : list byte) (n : Node) : Node :=
  match n with
  | File c => File (c ++ data)
  | Dir => Dir
  end.

(** [f.write(data)] on the file opened at [p]. *)
Definition file_write (p : list string) (data : list byte) : IO unit :=
  fun w => (Ret tt, set_fs (alter (append_content data) p (fs w)) w).

(** [shutil.copy2(src, dst)]: a destination that is a directory receives
    the copy under the source's own name. *)
Definition copy2 (src dst : list string) (f : gmap (list string) Node)
  : Outcome (gmap (list string) Node) :=
  let dst' := if is_dir f dst then path_join dst (default EmptyString (last src))
              else dst in
  if bool_decide (src = dst') && path_exists f src then Raise SameFileError
  else
    let* content := read_file f src in
    let* f1 := open_for_writing dst' f in
    Ret (<[dst' := File content]> f1).

(** *** The artwork fetcher *)

Definition requests_get (url : string) : IO Response :=
  fun w => (net w url, log_request url w).

Definition nonempty (chunk : list byte) : bool :=
  match chunk with
  | [] => false
  | _ => true
  end.

(** [for chunk in r.iter_content(8192): if chunk: f.write(chunk)] *)
Fixpoint write_chunks (p : list string) (cs : list (list byte)) (stop : option exn)
  : IO unit :=
  match cs with
  | [] => match stop with
          | Some e => io_raise e
          | None => io_ret tt
          end
  | c :: rest =>
      (if nonempty c then file_write p c else io_ret tt) ;;
      write_chunks p rest stop
  end%io.

Definition download_to_file (url : string) (out_path : list string) : IO bool :=
  (let* got := io_try (let* r := requests_get url in io_ret (Some r))
                      (fun _ => io_ret None) in
   match got with
   | None => io_ret false
   | Some r =>
       if negb (status_code r =? 200) then io_ret false
       else
         io_try
           (io_fs (open_for_writing out_path) ;;
            write_chunks out_path (chunks r) (broken r) ;;
            io_ret true)
           (fun _ => io_ret false)
   end)%io.

(** *** The side-file writer *)

Definition default_json : Json :=
  JObj [("nVersion", JInt 1);
        ("logoPosition",
         JObj [("pinnedPosition", JStr "CenterCenter");
               ("nWidthPct", JFloat (70 # 1));
               ("nHeightPct", JFloat (95 # 1))])].

Section Sidecar.
Context {RT : Runtime}.

(** [json.dump] writes ASCII text only, so its UTF-8 encoding is the text
    itself. *)
Definition default_json_bytes : list byte :=
  bytes_of (json_dump_indent2 default_json).

Definition copy_or_write_json_for_target (grid_dir : list string)
    (source_appid target_appid : string) : IO string :=
  let src := path_join grid_dir (source_appid +:+ ".json") in
  let dst := path_join grid_dir (target_appid +:+ ".json") in
  io_try
    (fun w =>
       if path_exists (fs w) src then
         (io_fs (copy2 src dst) ;; io_ret "JSON copied")%io w
       else
         (io_fs (open_for_writing dst) ;;
          file_write dst default_json_bytes ;;
          io_ret "JSON written (default)")%io w)
    (fun _ => io_ret "JSON failed").

End Sidecar.

(** *** The apply action of the window *)

(** The part of [SteamNonSteamArtApply] that [on_apply] reads: the loaded
    shortcuts, the artwork directory, the selected row of the list (-1 when
    nothing is selected) and the content of the AppID field. *)
Record Window : Type := {
  win_shortcuts : list ShortcutEntry;
  win_grid_dir : list string;
  win_current_row : Z;
  win_appid_input : string
}.

Definition warning (title message : string) : IO unit :=
  fun w => (Ret tt, add_dialog title message w).

Definition setText (t : string) : IO unit :=
  fun w => (Ret tt, set_status t w).

Definition text : IO string := fun w => (Ret (status_text w), w).

(** [self.shortcuts[row]] for a row that is not negative. *)
Definition shortcut_at (l : list ShortcutEntry) (row : Z) : IO ShortcutEntry :=
  match nth_error l (Z.to_nat row) with
  | Some e => io_ret e
  | None => io_raise IndexError
  end.

Definition cdn_url (source_appid asset : string) : string :=
  "https://steamcdn-a.akamaihd.net/steam/apps/" +:+ source_appid +:+ "/" +:+ asset.

(** The check mark and the cross are kept as the bytes the script's source
    holds for them. *)
Definition mark (label : string) (ok : bool) : string :=
  if ok then label +:+ " ✓" else label +:+ " ✗".

Section Apply.
Context {RT : Runtime}.

Definition on_apply (self : Window) : IO unit :=
  (let row := win_current_row self in
   if row <? 0 then
     warning "Select an entry" "Please select a non-Steam shortcut from the list."
   else
     let source_appid := PyStr.strip (win_appid_input self) in
     if negb (PyStr.isdigit source_appid) then
       warning "Invalid AppID" "Please enter a valid numeric Steam AppID to copy from."
     else
       let* target_entry := shortcut_at (win_shortcuts self) row in
       let target_id := appid target_entry in
       setText ("Downloading artwork for AppID " +:+ source_appid
                +:+ " → applying to non-Steam ID " +:+ target_id +:+ " ...") ;;
       let cover_url := cdn_url source_appid "library_600x900_2x.jpg" in
       let wide_url := cdn_url source_appid "library_411x184.jpg" in
       let hero_url := cdn_url source_appid "library_hero.jpg" in
       let logo_url := cdn_url source_appid "logo.png" in
       let dest_cover := path_join (win_grid_dir self) (target_id +:+ "p.jpg") in
       let dest_wide := path_join (win_grid_dir self) (target_id +:+ ".jpg") in
       let dest_hero := path_join (win_grid_dir self) (target_id +:+ "_hero.jpg") in
       let dest_logo := path_join (win_grid_dir self) (target_id +:+ "_logo.png") in
       let* cover := download_to_file cover_url dest_cover in
       let* wide := download_to_file wide_url dest_wide in
       let* hero := download_to_file hero_url dest_hero in
       let* logo := download_to_file logo_url dest_logo in
       let* json_result :=
         copy_or_write_json_for_target (win_grid_dir self) source_appid target_id in
       let results := [mark "Cover" cover; mark "Wide" wide; mark "Hero" hero;
                       mark "Logo" logo; json_result] in
       setText (join "  |  " results +:+ String "010" "Saved to: "
                +:+ path_text (win_grid_dir self)) ;;
       let* shown := text in
       setText (shown +:+ String "010"
                  "Tip: Quit & relaunch Steam to pick up artwork (or clear Steam cache)."))%io.

End Apply.

(** ** The registry as the specification describes it *)

(** A parsed registry maps arbitrary keys to per-entry field mappings; this
    is the value [shortcuts.items()] ranges over. *)
Definition registry_items (reg : list (Key * list (Key * PyVal)))
  : list (Key * PyVal) :=
  map (fun kd => (kd.1, VDict kd.2)) reg.

(** The identifier field of an entry: the value stored under the text key
    ["appid"]; without that key, the value stored under the bytes key;
    without both, [None]. *)
Definition identifier_field (d : list (Key * PyVal)) : PyVal :=
  match assoc (KStr "appid") d with
  | Some v => v
  | None => dict_get d (KBytes (bytes_of "appid"))
  end.

(** A logical field is stored under one form of its key, text or bytes. *)
Definition one_key_form (d : list (Key * PyVal)) (name : string) : Prop :=
  assoc (KStr name) d = None \/ assoc (KBytes (bytes_of name)) d = None.

(** The text key holds the integer 0 or the empty byte sequence. *)
Definition zero_under_text_key (d : list (Key * PyVal)) : Prop :=
  assoc (KStr "appid") d = Some (VInt 0)
  \/ assoc (KStr "appid") d = Some (VBytes []).

(** The text key holds a zero of any kind: the integer 0, the empty byte
    sequence or a float zero. *)
Definition zero_like_under_text_key (d : list (Key * PyVal)) : Prop :=
  zero_under_text_key d
  \/ exists negative, assoc (KStr "appid") d = Some (VFloat (FZero negative)).

Section RegistryViews.
Context {RT : Runtime}.

(** Normalization yields a canonical identifier. *)
Definition normalizes (v : PyVal) : bool :=
  match normalize_appid_field v with
  | Ret (Some _) => true
  | _ => false
  end.

(** The value [v.get(text_key) or v.get(bytes_key)] has on a [dict]. *)
Definition lookup_chain (d : list (Key * PyVal)) (name : string) : PyVal :=
  py_or (dict_get d (KStr name)) (dict_get d (KBytes (bytes_of name))).

(** The record [read_entry] builds for a [dict], when it builds one. *)
Definition entry_of (d : list (Key * PyVal)) : option ShortcutEntry :=
  match normalize_appid_field (lookup_chain d "appid") with
  | Ret (Some a) =>
      Some {| appid := a;
              AppName := field_text (py_or (lookup_chain d "AppName") (VBytes []));
              Exe := field_text (py_or (lookup_chain d "Exe") (VBytes []));
              raw := VDict d |}
  | _ => None
  end.

End RegistryViews.

(** ** The rest of the script: the artwork directory, the list, the start *)

(** [os.mkdir(p)].  [FileExistsError] is the [OSError] with errno 17. *)
Definition os_mkdir (p : list string) (f : gmap (list string) Node)
  : Outcome (gmap (list string) Node) :=
  match f !! p with
  | Some _ => Raise (OSError 17)
  | None =>
      match f !! parent p with
      | Some Dir => Ret (<[p := Dir]> f)
      | Some (File _) => Raise NotADirectoryError
      | None => Raise FileNotFoundError
      end
  end.

(** [p.mkdir(parents=False, exist_ok=True)]: an [OSError] other than
    [FileNotFoundError] is dropped when [p] is a directory. *)
Definition mkdir_exist_ok (p : list string) (f : gmap (list string) Node)
  : Outcome (gmap (list string) Node) :=
  match os_mkdir p f with
  | Ret f' => Ret f'
  | Raise FileNotFoundError => Raise FileNotFoundError
  | Raise e => if is_dir f p then Ret f else Raise e
  end.

(** [p.mkdir(parents=True, exist_ok=True)], by recursion on the components
    of [p] from the last one: [rp] is [p] reversed, and the path without
    its first element is the parent reversed.  The root is its own parent. *)
Fixpoint mkdir_parents_rev (rp : list string) (f : gmap (list string) Node)
  : Outcome (gmap (list string) Node) :=
  let p := reverse rp in
  match os_mkdir p f with
  | Ret f' => Ret f'
  | Raise FileNotFoundError =>
      match rp with
      | [] => Raise FileNotFoundError
      | _ :: rparent =>
          let* f1 := mkdir_parents_rev rparent f in
          mkdir_exist_ok p f1
      end
  | Raise e => if is_dir f p then Ret f else Raise e
  end.

Definition mkdir_parents (p : list string) (f : gmap (list string) Node)
  : Outcome (gmap (list string) Node) :=
  mkdir_parents_rev (reverse p) f.

Definition grid_path (userdata_path : list string) : list string :=
  path_join (path_join userdata_path "config") "grid".

Definition ensure_grid_dir (userdata_path : list string) : IO (list string) :=
  (let gp := grid_path userdata_path in
   io_fs (mkdir_parents gp) ;;
   io_ret gp)%io.

(** The window's own state that [reload_shortcuts] changes: the loaded
    shortcuts and the lines of the list. *)
Record Listing : Type := {
  shortcuts : list ShortcutEntry;
  items : list string
}.

(** The line of the list for one shortcut. *)
Definition item_text (ent : ShortcutEntry) : string :=
  AppName ent +:+ " — " +:+ Exe ent +:+ "   [ID: " +:+ appid ent +:+ "]".

(** [for ent in self.shortcuts: self.list.addItem(...)] *)
Fixpoint add_items (l : list ShortcutEntry) (shown : list string) : list string :=
  match l with
  | [] => shown
  | ent :: rest => add_items rest (shown ++ [item_text ent])
  end.

(** What the window reads for [on_apply], given the row the list reports as
    current and the text of the field. *)
Definition window_of (self : Listing) (grid_dir : list string) (row : Z)
    (input : string) : Window :=
  {| win_shortcuts := shortcuts self; win_grid_dir := grid_dir;
     win_current_row := row; win_appid_input := input |}.

Section Reload.
Context {RT : Runtime}.

(** [reload_shortcuts]: the list is cleared first; when reading raises, the
    shortcuts loaded before stay and the exception leaves the method. *)
Definition reload_shortcuts (shortcuts_path : list string) (self : Listing)
    (w : World) : Outcome unit * Listing * World :=
  let cleared := {| shortcuts := shortcuts self; items := [] |} in
  match read_shortcuts (fs w) shortcuts_path with
  | Raise e => (Raise e, cleared, w)
  | Ret loaded =>
      (Ret tt,
       {| shortcuts := loaded; items := add_items loaded [] |},
       set_status ("Loaded " +:+ PyInt.to_text (Z.of_nat (length loaded))
                   +:+ " shortcuts from " +:+ path_text shortcuts_path) w)
  end.

(** How [__init__] ends: [sys.exit(code)], an exception, or a window with
    the account, its paths and its listing. *)
Inductive Startup : Type :=
| Exited (code : Z)
| Crashed (e : exn)
| Started (steamid : string) (userdata_path shortcuts_path grid_dir : list string)
          (self : Listing).

(** [__init__], without the layout of the widgets.  [not steamid] holds
    for [None] and for the empty text. *)
Definition init (home : list string) (w : World) : Startup * World :=
  match find_steam_userdata home (fs w) with
  | Raise e => (Crashed e, w)
  | Ret None | Ret (Some (EmptyString, _)) =>
      (Exited 1,
       add_dialog "Steam userdata not found"
         ("Couldn't find Steam userdata folder at:" +:+ String "010"
            (path_text (STEAM_USERDATA_BASE home)) +:+ String "010" (String "010"
            "Make sure Steam has run at least once.")) w)
  | Ret (Some (steamid, userdata_path)) =>
      let shortcuts_path :=
        path_join (path_join userdata_path "config") "shortcuts.vdf" in
      match ensure_grid_dir userdata_path w with
      | (Raise e, w1) => (Crashed e, w1)
      | (Ret grid_dir, w1) =>
          let w2 := set_status EmptyString w1 in
          match reload_shortcuts shortcuts_path
                  {| shortcuts := []; items := [] |} w2 with
          | (Raise e, _, w3) => (Crashed e, w3)
          | (Ret _, self, w3) =>
              (Started steamid userdata_path shortcuts_path grid_dir self, w3)
          end
      end
  end.

End Reload.

(** ** More notions used to state properties *)

(** A canonical identifier: the decimal text of an unsigned 32-bit value. *)
Definition canonical_id (a : string) : Prop :=
  exists n, 0 <= n < 2 ^ 32 /\ a = PyInt.to_text n.

Definition is_ret {A} (m : Outcome A) : bool :=
  match m with
  | Ret _ => true
  | Raise _ => false
  end.

(** What one download will answer, read off the world it starts in: the
    request is answered with status 200, the destination can be opened, and
    the transfer does not break. *)
Definition fetch_ok (w : World) (url : string) (dest : list string) : bool :=
  match net w url with
  | Ret r =>
      (status_code r =? 200) && is_ret (open_for_writing dest (fs w))
      && match broken r with None => true | Some _ => false end
  | Raise _ => false
  end.

(** The value is a [dict]. *)
Definition is_dict (v : PyVal) : Prop := exists d, v = VDict d.

(** Nothing but the files differs between two worlds. *)
Definition same_but_files (w w' : World) : Prop :=
  net w' = net w /\ status_text w' = status_text w /\ dialogs w' = dialogs w.

(** Whether [open(p, "w")] succeeds: [p] is no directory and its parent is
    one. *)
Definition writable (f : gmap (list string) Node) (p : list string) : bool :=
  negb (is_dir f p) && is_dir f (parent p).

(** The file that receives the copy. *)
Definition copy_target (f : gmap (list string) Node) (src dst : list string)
  : list string :=
  if is_dir f dst then path_join dst (default EmptyString (last src)) else dst.

(** [q] is [p] or one of its ancestors. *)
Definition ancestor_or_self (q p : list string) : Prop := q `prefix_of` p.

(** The two worlds have the same network and warning boxes, and the same
    files except possibly at the paths [ps]. *)
Definition agree_off (ps : list (list string)) (w w' : World) : Prop :=
  net w' = net w /\ dialogs w' = dialogs w
  /\ forall p, p ∉ ps -> fs w' !! p = fs w !! p.

(** The marks of the four artwork files, each read off the world before the
    action. *)
Definition asset_marks (w : World) (grid_dir : list string)
    (source_appid target_id : string) : list string :=
  [ mark "Cover" (fetch_ok w (cdn_url source_appid "library_600x900_2x.jpg")
                    (path_join grid_dir (target_id +:+ "p.jpg")));
    mark "Wide" (fetch_ok w (cdn_url source_appid "library_411x184.jpg")
                   (path_join grid_dir (target_id +:+ ".jpg")));
    mark "Hero" (fetch_ok w (cdn_url source_appid "library_hero.jpg")
                   (path_join grid_dir (target_id +:+ "_hero.jpg")));
    mark "Logo" (fetch_ok w (cdn_url source_appid "logo.png")
                   (path_join grid_dir (target_id +:+ "_logo.png"))) ].

(** The paths the apply action may write. *)
Definition apply_paths (grid_dir : list string) (source_appid target_id : string)
  : list (list string) :=
  [ path_join grid_dir (target_id +:+ "p.jpg");
    path_join grid_dir (target_id +:+ ".jpg");
    path_join grid_dir (target_id +:+ "_hero.jpg");
    path_join grid_dir (target_id +:+ "_logo.png");
    path_join grid_dir (target_id +:+ ".json");
    path_join (path_join grid_dir (target_id +:+ ".json")) (source_appid +:+ ".json") ].

(** ** Sample data

    Concrete stand-ins for the library routines, a registry, file systems
    and a network, on which the model is run in the examples below. *)

Definition sample_registry : list (Key * list (Key * PyVal)) :=
  [ (KStr "0", [(KStr "appid", VInt (-1294967296));
                (KStr "AppName", VStr "Alpha"); (KStr "Exe", VStr "/opt/alpha")]);
    (KStr "1", [(KStr "AppName", VStr "Beta"); (KStr "Exe", VStr "/opt/beta")]);
    (KStr "2", [(KStr "appid", VBytes [x01; x02; x03; x04]);
                (KStr "AppName", VBytes (bytes_of "Gamma"));
                (KStr "Exe", VStr "/opt/gamma")]);
    (KStr "3", [(KStr "appid", VStr "not a number");
                (KStr "AppName", VStr "Delta"); (KStr "Exe", VStr "/opt/delta")]);
    (KStr "4", [(KBytes (bytes_of "appid"), VStr "271590");
                (KBytes (bytes_of "AppName"), VStr "Epsilon")]) ].

Definition sample_data : PyVal :=
  VDict [(KStr "shortcuts", VDict (registry_items sample_registry))].

(** An entry whose identifier, under the text key, is the integer 0. *)
Definition zero_entry : list (Key * PyVal) :=
  [(KStr "appid", VInt 0); (KStr "AppName", VStr "Zero"); (KStr "Exe", VStr "/opt/zero")].

Definition zero_data : PyVal :=
  VDict [(KStr "shortcuts", VDict (registry_items [(KStr "0", zero_entry)]))].

(** An entry whose identifier, under the bytes key, is the integer 0. *)
Definition zero_bytes_key_entry : list (Key * PyVal) :=
  [(KBytes (bytes_of "appid"), VInt 0); (KStr "AppName", VStr "Zero")].

Definition zero_bytes_key_data : PyVal :=
  VDict [(KStr "shortcuts", VDict (registry_items [(KStr "0", zero_bytes_key_entry)]))].

(** An entry whose identifier, under the text key, is a float zero. *)
Definition float_zero_entry : list (Key * PyVal) :=
  [(KStr "appid", VFloat (FZero false)); (KStr "AppName", VStr "Zero");
   (KStr "Exe", VStr "/opt/zero")].

Definition float_zero_data : PyVal :=
  VDict [(KStr "shortcuts", VDict (registry_items [(KStr "0", float_zero_entry)]))].


(** A loader that rejects the empty file and reads any other content as
    [sample_data]. *)
Definition sample_binary_load (content : list byte) : Outcome PyVal :=
  match content with
  | [] => Raise SyntaxError
  | _ => Ret sample_data
  end.

Definition sample_runtime : Runtime :=
  {| repr_dict_items := fun _ => "...";
     repr_bytes_literal := fun _ => "'...'";
     repr_finite_float := fun _ => "0.0";
     decode_utf8_ignore := string_of_list_byte;
     vdf_binary_load := sample_binary_load;
     json_dump_indent2 := fun _ => "{}" |}.


Definition sample_home : list string := ["Users"; "player"].

Definition sample_userdata : list string := STEAM_USERDATA_BASE sample_home.

Definition sample_config : list string := sample_userdata ++ ["10"; "config"].

Definition sample_grid : list string := sample_config ++ ["grid"].

Definition sample_fs : gmap (list string) Node :=
  list_to_map
    [ (sample_userdata, Dir);
      (sample_userdata ++ ["9"], Dir);
      (sample_userdata ++ ["10"], Dir);
      (sample_userdata ++ ["0123"], File []);
      (sample_userdata ++ ["anonymous"], Dir);
      (sample_config, Dir);
      (sample_config ++ ["shortcuts.vdf"], File [x00; x73]);
      (sample_config ++ ["broken.vdf"], File []);
      (sample_grid, Dir);
      (sample_grid ++ ["271590.json"], File (bytes_of "logo placement of 271590"));
      (sample_grid ++ ["999999999.json"], Dir) ].

(** The network serves every artwork file in two chunks with an empty one
    in between, except the logo, which it does not have. *)
Definition sample_net (url : string) : Outcome Response :=
  if String.eqb url (cdn_url "271590" "logo.png")
  then Ret {| status_code := 404; chunks := []; broken := None |}
  else Ret {| status_code := 200; chunks := [[x01; x02]; []; [x03]]; broken := None |}.

Definition sample_world : World :=
  {| fs := sample_fs; net := sample_net; requests := [];
     status_text := EmptyString; dialogs := [] |}.

Definition sample_entry : ShortcutEntry :=
  {| appid := "3000000000"; AppName := "Alpha"; Exe := "/opt/alpha"; raw := VNone |}.

(** The window with the first row selected and [t] typed in the field. *)
Definition sample_window (t : string) : Window :=
  {| win_shortcuts := [sample_entry]; win_grid_dir := sample_grid;
     win_current_row := 0; win_appid_input := t |}.

(** A network whose transfers break after the first chunk. *)
Definition interrupted_net (url : string) : Outcome Response :=
  Ret {| status_code := 200; chunks := [[x01; x02]]; broken := Some ChunkedEncodingError |}.

Definition interrupted_world : World :=
  {| fs := sample_fs; net := interrupted_net; requests := [];
     status_text := EmptyString; dialogs := [] |}.

(** The records of the sample registry. *)
Definition sample_records : list ShortcutEntry :=
  omap (fun kd => entry_of (RT := sample_runtime) kd.2) sample_registry.

(** The account directory 9 of the sample file system has no [config] yet. *)
Definition fresh_account : list string := sample_userdata ++ ["9"].

(** ** Notions used to state the properties *)

(** A name qualifies when it is the name of a subdirectory of [base] and
    passes [isdigit]. *)
Definition qualifies (files : gmap (list string) Node) (base : list string)
    (n : string) : Prop :=
  files !! (base ++ [n]) = Some Dir /\ PyStr.isdigit n = true.

(** [logs m urls]: from any world, [m] returns, having sent exactly the
    requests [urls]. *)
Definition logs {A} (m : IO A) (urls : list string) : Prop :=
  forall w, exists a w', m w = (Ret a, w') /\ requests w' = requests w ++ urls.

(** Splits a conjunction of cases and closes those the context refutes. *)
Ltac io_cases :=
  repeat split; intros; simplify_eq;
  repeat match goal with
         | H : returns (Raise _) |- _ => destruct H as [? ?]
         | H : _ \/ _ |- _ => destruct H
         end;
  simplify_eq; try done.

(** * Properties *)

(** ** Decimal text *)

Lemma rstrip_no_blank (sp : ascii -> bool) (s : string) :
  PyStr.all_chars (fun c => negb (sp c)) s = true -> PyStr.rstrip sp s = s.
Proof.
  induction s as [|c r IH]; simpl; [done|].
  intros [Hc Hr]%andb_true_iff. rewrite (IH Hr).
  destruct r; [|done]. by destruct (sp c).
Qed.

Lemma lstrip_no_blank (sp : ascii -> bool) (c : ascii) (r : string) :
  sp c = false -> PyStr.lstrip sp (String c r) = String c r.
Proof. intros H. simpl. by rewrite H. Qed.

Lemma strip_no_blank (sp : ascii -> bool) (s : string) :
  PyStr.all_chars (fun c => negb (sp c)) s = true -> PyStr.strip_with sp s = s.
Proof.
  intros H. unfold PyStr.strip_with.
  destruct s as [|c r]; [done|].
  rewrite lstrip_no_blank; [by apply rstrip_no_blank|].
  simpl in H. apply andb_true_iff in H as [H _]. by destruct (sp c).
Qed.

(** The characters of a rendered numeral are decimal digits. *)
Lemma uint_text_digits (u : uint) :
  PyStr.all_chars (fun c => PyStr.between 48 57 (PyStr.code c))
                  (NilEmpty.string_of_uint u) = true.
Proof. induction u; simpl; auto. Qed.

Lemma all_chars_impl (p q : ascii -> bool) (s : string) :
  (forall c, p c = true -> q c = true) ->
  PyStr.all_chars p s = true -> PyStr.all_chars q s = true.
Proof.
  intros Hpq. induction s as [|c r IH]; simpl; [done|].
  intros [Hc Hr]%andb_true_iff. rewrite (Hpq _ Hc). by apply IH.
Qed.

Lemma digit_not_int_space (c : ascii) :
  PyStr.between 48 57 (PyStr.code c) = true ->
  negb (PyStr.int_space_text c) = true.
Proof.
  unfold PyStr.int_space_text, PyStr.between.
  generalize (PyStr.code c). intros n H.
  apply andb_true_iff in H as [H1 H2].
  apply N.leb_le in H1. apply N.leb_le in H2.
  apply negb_true_iff.
  repeat (apply orb_false_iff; split).
  - apply andb_false_iff. right. apply N.leb_gt. lia.
  - apply N.eqb_neq. lia.
  - apply N.eqb_neq. lia.
  - apply N.eqb_neq. lia.
Qed.

Lemma scan_digits_text (u : uint) (after_digit : bool) :
  u <> Nil \/ after_digit = true ->
  PyInt.scan_digits after_digit (NilEmpty.string_of_uint u) = Some u.
Proof.
  revert after_digit.
  induction u; intros after_digit Hne; simpl;
    try (rewrite IHu; [done | by right]).
  destruct Hne as [?| ->]; done.
Qed.

Lemma uint_text_nonempty (u : uint) :
  u <> Nil -> exists c r, NilEmpty.string_of_uint u = String c r
    /\ PyStr.between 48 57 (PyStr.code c) = true.
Proof. destruct u; intros H; try done; simpl; eauto. Qed.

Lemma of_text_uint (u : uint) :
  u <> Nil ->
  PyInt.of_text (NilEmpty.string_of_uint u) = Ret (Z.of_uint u)
  /\ PyInt.of_text (String "-" (NilEmpty.string_of_uint u)) = Ret (- Z.of_uint u).
Proof.
  intros Hne. unfold PyInt.of_text, PyInt.of_literal.
  pose proof (all_chars_impl _ _ _ digit_not_int_space (uint_text_digits u)) as Hd.
  split.
  - rewrite (strip_no_blank _ _ Hd).
    destruct (uint_text_nonempty u Hne) as (c & r & Hs & Hc).
    assert (PyInt.scan_digits false (String c r) = Some u) as Hscan.
    { rewrite <- Hs. apply scan_digits_text. by left. }
    rewrite Hs.
    destruct (decide (c = "-"%char)) as [->|]; [done|].
    destruct (decide (c = "+"%char)) as [->|]; [done|].
    assert ((let '(negative, digits) :=
               match String c r with
               | String "-" r0 => (true, r0)
               | String "+" r0 => (false, r0)
               | _ => (false, String c r)
               end in
             match PyInt.scan_digits false digits with
             | Some u0 => Ret (if negative then - Z.of_uint u0 else Z.of_uint u0)
             | None => Raise ValueError
             end) =
            match PyInt.scan_digits false (String c r) with
            | Some u0 => Ret (Z.of_uint u0)
            | None => Raise ValueError
            end) as ->.
    { destruct c as [[] [] [] [] [] [] [] []]; done. }
    by rewrite Hscan.
  - rewrite strip_no_blank; [|simpl; by rewrite Hd].
    rewrite scan_digits_text; [done | by left].
Qed.

Lemma nilzero_text (u : uint) :
  u <> Nil -> NilZero.string_of_uint u = NilEmpty.string_of_uint u.
Proof. by destruct u. Qed.

(** Reading back the decimal text of an integer gives the integer. *)
Lemma of_text_to_text (z : Z) : PyInt.of_text (PyInt.to_text z) = Ret z.
Proof.
  unfold PyInt.to_text. destruct z as [|p|p]; [done| |]; simpl;
    pose proof (DecimalPos.Unsigned.to_uint_nonnil p) as Hne;
    pose proof (DecimalZ.of_to (Z.pos p)) as Hz; simpl in Hz;
    rewrite (nilzero_text _ Hne);
    destruct (of_text_uint _ Hne) as [H1 H2].
  - by rewrite H1, Hz.
  - by rewrite H2, Hz.
Qed.

Lemma to_text_inj (a b : Z) : PyInt.to_text a = PyInt.to_text b -> a = b.
Proof.
  intros H. pose proof (of_text_to_text a) as Ha.
  rewrite H, of_text_to_text in Ha. congruence.
Qed.

Lemma to_text_nonempty (z : Z) : PyInt.to_text z <> EmptyString.
Proof.
  intros H. pose proof (of_text_to_text z) as Hz. rewrite H in Hz. done.
Qed.

(** ** Bytes and masks *)

Lemma u8_range (b : byte) : 0 <= PyInt.u8 b < 256.
Proof.
  unfold PyInt.u8. pose proof (Byte.to_N_bounded b). lia.
Qed.

Lemma land_mask32 (v : Z) : Z.land v mask32 = v mod 2 ^ 32.
Proof. change mask32 with (Z.ones 32). apply Z.land_ones. lia. Qed.

Lemma from_bytes_little_nonneg (b : list byte) : 0 <= PyInt.from_bytes_little b.
Proof.
  induction b as [|x r IH]; simpl; [lia|]. pose proof (u8_range x). lia.
Qed.

Section NormalizerFacts.
Context {RT : Runtime}.

Lemma normalize_bytes (b : list byte) :
  normalize_appid_field (VBytes b)
  = Ret (Some (PyInt.to_text (PyInt.from_bytes_little b mod 2 ^ 32))).
Proof.
  cbv [normalize_appid_field try_except bind]. by rewrite land_mask32.
Qed.

Lemma normalize_int (v : Z) :
  normalize_appid_field (VInt v) = Ret (Some (PyInt.to_text (v mod 2 ^ 32))).
Proof.
  cbv [normalize_appid_field normalize_as_int py_int try_except bind].
  by rewrite land_mask32.
Qed.

Lemma normalize_as_int_returns (raw : PyVal) : returns (normalize_as_int raw).
Proof.
  unfold normalize_as_int, returns.
  destruct (py_int raw) as [z|e]; simpl; [eauto|].
  destruct (PyInt.of_text (py_str raw)); simpl; eauto.
Qed.

Lemma normalize_returns (raw : PyVal) : returns (normalize_appid_field raw).
Proof.
  destruct raw; try apply normalize_as_int_returns.
  - by exists None.
  - rewrite normalize_bytes. by eexists.
Qed.

(** C1.  For every sequence of four bytes, [normalize_appid_field] returns
    the decimal text of the unsigned integer the bytes spell in little-endian
    order: the value of [int.from_bytes], which is below 2^32 and so is its
    own remainder modulo 2^32.  Reading the text back as a decimal literal
    gives that integer. *)
Theorem normalize_four_bytes_little_endian (b0 b1 b2 b3 : byte) :
  let n := PyInt.u8 b0 + 2 ^ 8 * PyInt.u8 b1 + 2 ^ 16 * PyInt.u8 b2
           + 2 ^ 24 * PyInt.u8 b3 in
  normalize_appid_field (VBytes [b0; b1; b2; b3]) = Ret (Some (PyInt.to_text n))
  /\ n = PyInt.from_bytes_little [b0; b1; b2; b3] mod 2 ^ 32
  /\ 0 <= n < 2 ^ 32
  /\ PyInt.of_text (PyInt.to_text n) = Ret n.
Proof.
  intros n.
  pose proof (u8_range b0). pose proof (u8_range b1).
  pose proof (u8_range b2). pose proof (u8_range b3).
  assert (0 <= n < 2 ^ 32) as Hn by (unfold n; lia).
  assert (PyInt.from_bytes_little [b0; b1; b2; b3] = n) as Hv
    by (unfold n; simpl; lia).
  rewrite normalize_bytes, Hv, Z.mod_small by done.
  auto using of_text_to_text.
Qed.

(** C2.  For every integer [v], of either sign and any size,
    [normalize_appid_field] gives the same text on [v] and on
    [v & 0xFFFFFFFF]: the decimal text of [v] reduced modulo 2^32, an
    unsigned 32-bit value. *)
Theorem normalize_int_sign_has_no_effect (v : Z) :
  normalize_appid_field (VInt v) = normalize_appid_field (VInt (Z.land v 0xFFFFFFFF))
  /\ normalize_appid_field (VInt v) = Ret (Some (PyInt.to_text (v mod 2 ^ 32)))
  /\ 0 <= v mod 2 ^ 32 < 2 ^ 32.
Proof.
  rewrite !normalize_int. change 0xFFFFFFFF with mask32.
  rewrite land_mask32, Z.mod_mod by lia.
  split; [done|]. split; [done|]. apply Z.mod_pos_bound. lia.
Qed.

(** C3.  [normalize_appid_field] never raises: on [None] it returns
    [None]; on a text that [int] does not accept it returns [None]; and on
    every value it returns, with [None] or with a text, whatever its own
    conversions raise. *)
Theorem normalize_never_raises (raw : PyVal) (s : string) :
  normalize_appid_field VNone = Ret None
  /\ (~ returns (PyInt.of_text s) -> normalize_appid_field (VStr s) = Ret None)
  /\ returns (normalize_appid_field raw).
Proof.
  split; [done|]. split.
  - intros Hs. simpl. unfold normalize_as_int. simpl.
    destruct (PyInt.of_text s) as [z|e] eqn:Hz; [|done].
    destruct Hs. by exists z.
  - apply normalize_returns.
Qed.
End NormalizerFacts.

(** ** The registry reader *)

Lemma get_either_dict (d : list (Key * PyVal)) (name : string) :
  get_either (VDict d) name = Ret (lookup_chain d name).
Proof.
  unfold get_either, lookup_chain, py_or, or_else. simpl.
  by destruct (truthy (dict_get d (KStr name))).
Qed.

Lemma of_text_bad_start (c : ascii) (r : string) :
  PyStr.int_space_text c = false ->
  PyInt.decimal_digit c = None ->
  c <> "-"%char -> c <> "+"%char ->
  PyInt.of_text (String c r) = Raise ValueError.
Proof.
  intros Hsp Hd Hm Hp. unfold PyInt.of_text, PyInt.of_literal, PyStr.strip_with.
  rewrite lstrip_no_blank by done.
  assert (exists r', PyStr.rstrip PyStr.int_space_text (String c r) = String c r')
    as [r' ->].
  { simpl. destruct (PyStr.rstrip PyStr.int_space_text r); [|by eauto].
    rewrite Hsp. eauto. }
  assert (PyInt.scan_digits false (String c r') = None) as Hscan.
  { simpl. rewrite Hd. by destruct (Ascii.eqb c "_"%char). }
  destruct c as [[] [] [] [] [] [] [] []]; try done; by rewrite Hscan.
Qed.

Section RegistryFacts.
Context {RT : Runtime}.

Lemma normalize_text_nonempty (v : PyVal) (a : string) :
  normalize_appid_field v = Ret (Some a) -> a <> EmptyString.
Proof.
  assert (forall w, normalize_as_int w = Ret (Some a) -> a <> EmptyString) as Hint.
  { intros w. unfold normalize_as_int.
    destruct (py_int w) as [z|e]; simpl.
    - intros [= <-]. apply to_text_nonempty.
    - destruct (PyInt.of_text (py_str w)); simpl; [|done].
      intros [= <-]. apply to_text_nonempty. }
  destruct v; try apply Hint; [done|].
  rewrite normalize_bytes. intros [= <-]. apply to_text_nonempty.
Qed.

Lemma normalize_dict (d : list (Key * PyVal)) :
  normalize_appid_field (VDict d) = Ret None.
Proof.
  cbv [normalize_appid_field normalize_as_int py_int try_except bind py_str].
  change ("{" +:+ repr_dict_items d +:+ "}")
    with (String "{" (repr_dict_items d +:+ "}")).
  by rewrite of_text_bad_start.
Qed.

Lemma normalize_empty_text : normalize_appid_field (VStr EmptyString) = Ret None.
Proof. done. Qed.

Lemma read_entry_dict (d : list (Key * PyVal)) :
  read_entry (VDict d) = Ret (entry_of d).
Proof.
  unfold read_entry, entry_of. rewrite !get_either_dict. simpl.
  destruct (normalize_appid_field (lookup_chain d "appid")) as [[a|]|e] eqn:Hn;
    simpl; [|done|].
  - destruct a; [|done]. by apply normalize_text_nonempty in Hn.
  - destruct (normalize_returns (lookup_chain d "appid")) as [x Hx]. congruence.
Qed.

Lemma read_entries_registry (reg : list (Key * list (Key * PyVal)))
    (acc : list ShortcutEntry) :
  read_entries (registry_items reg) acc
  = Ret (acc ++ omap (fun kd => entry_of kd.2) reg).
Proof.
  revert acc. induction reg as [|[k d] reg IH]; intros acc; simpl.
  - by rewrite app_nil_r.
  - rewrite read_entry_dict. simpl. rewrite IH.
    destruct (entry_of d); simpl; [|done]. by rewrite <- app_assoc.
Qed.

Lemma read_parsed_registry (data : PyVal) (reg : list (Key * list (Key * PyVal))) :
  shortcuts_of data = Ret (VDict (registry_items reg)) ->
  read_parsed data = Ret (omap (fun kd => entry_of kd.2) reg).
Proof.
  intros H. unfold read_parsed. rewrite H. simpl.
  apply read_entries_registry.
Qed.

(** Every record returned comes from one call of [read_entry] on its
    [raw] field. *)
Lemma read_entries_sound (items : list (Key * PyVal)) (acc out : list ShortcutEntry) :
  read_entries items acc = Ret out ->
  forall r, r ∈ out -> r ∈ acc \/ read_entry (raw r) = Ret (Some r).
Proof.
  revert acc. induction items as [|[k ent] items IH]; intros acc; simpl.
  - intros [= <-]. auto.
  - destruct (read_entry ent) as [step|e] eqn:Hstep; simpl; [|done].
    intros Hrest r Hr. destruct (IH _ Hrest r Hr) as [Hacc|]; [|by right].
    destruct step as [e|]; [|by left].
    apply elem_of_app in Hacc as [|Hlast]; [by left|].
    apply list_elem_of_singleton in Hlast as ->. right.
    assert (raw e = ent) as ->; [|done].
    unfold read_entry in Hstep.
    repeat match type of Hstep with
           | bind ?m _ = _ => destruct m; simpl in Hstep; [|done]
           end.
    destruct a0 as [[|]|]; simplify_eq; done.
Qed.
End RegistryFacts.

Section RegistryClaims.
Context {RT : Runtime}.

(** Where the lookup chain and the identifier field agree. *)
Lemma lookup_chain_identifier (d : list (Key * PyVal)) :
  one_key_form d "appid" -> ~ zero_like_under_text_key d ->
  normalize_appid_field (lookup_chain d "appid")
  = normalize_appid_field (identifier_field d).
Proof.
  unfold one_key_form, zero_like_under_text_key, zero_under_text_key, lookup_chain,
    identifier_field, dict_get.
  intros Hone Hzero.
  destruct (assoc (KStr "appid") d) as [v|] eqn:Ht; [|done].
  destruct Hone as [Hone|Hone]; [done|]. rewrite Hone.
  destruct v as [|z|x|b|s|items]; unfold py_or; cbn [truthy].
  - done.
  - destruct (Z.eqb_spec z 0) as [->|]; [destruct Hzero; auto | done].
  - destruct x; [destruct Hzero; eauto | done | done | done].
  - destruct b; [destruct Hzero; auto | done].
  - destruct s; [reflexivity | done].
  - destruct items; [by rewrite normalize_dict | done].
Qed.

Lemma entry_of_normalizes (d : list (Key * PyVal)) :
  is_Some (entry_of d) <-> normalizes (lookup_chain d "appid") = true.
Proof.
  unfold entry_of, normalizes.
  destruct (normalize_appid_field (lookup_chain d "appid")) as [[a|]|e]; simpl;
    split; try done; by intros [? ?].
Qed.

Lemma entry_of_fields (d : list (Key * PyVal)) (r : ShortcutEntry) :
  entry_of d = Some r ->
  raw r = VDict d
  /\ normalize_appid_field (lookup_chain d "appid") = Ret (Some (appid r)).
Proof.
  unfold entry_of.
  destruct (normalize_appid_field (lookup_chain d "appid")) as [[a|]|e]; try done.
  by intros [= <-].
Qed.

Lemma kept_length (reg : list (Key * list (Key * PyVal))) :
  Forall (fun kd => one_key_form kd.2 "appid" /\ ~ zero_like_under_text_key kd.2) reg ->
  length (omap (fun kd => entry_of kd.2) reg)
  = length (List.filter (fun kd => normalizes (identifier_field kd.2)) reg).
Proof.
  induction 1 as [|[k d] reg [Hone Hzero] _ IH]; [done|].
  pose proof (entry_of_normalizes d) as Hd.
  assert (normalizes (identifier_field d) = normalizes (lookup_chain d "appid"))
    as Heq by (unfold normalizes; by rewrite lookup_chain_identifier).
  cbn [List.filter omap list_omap snd]. rewrite Heq.
  destruct (normalizes (lookup_chain d "appid")).
  - destruct (entry_of d); simpl; [by rewrite IH|].
    by destruct (proj2 Hd eq_refl) as [? ?].
  - destruct (entry_of d); simpl; [|done].
    assert (false = true) by (apply Hd; eauto). done.
Qed.

(** Away from the zeros.  Take a parsed registry whose entries are field
    mappings, each storing its identifier under one form of the key, none
    holding a zero (the integer 0, a float zero, the empty byte sequence)
    under the text key.  Then [read_shortcuts], on the parsed file, returns
    a list [out] such that
    - an entry has a record in [out] exactly when normalizing its identifier
      field yields a canonical identifier;
    - [out] has as many records as there are such entries (five entries of
      which two have no readable identifier give three records);
    - every record carries the canonical identifier of its entry. *)
Theorem read_registry_keeps_what_normalizes
    (data : PyVal) (reg : list (Key * list (Key * PyVal))) :
  shortcuts_of data = Ret (VDict (registry_items reg)) ->
  Forall (fun kd => one_key_form kd.2 "appid" /\ ~ zero_like_under_text_key kd.2) reg ->
  exists out,
    read_parsed data = Ret out
    /\ (forall k d, (k, d) ∈ reg ->
          (exists r, r ∈ out /\ raw r = VDict d)
          <-> (exists a, normalize_appid_field (identifier_field d) = Ret (Some a)))
    /\ length out
       = length (List.filter (fun kd => normalizes (identifier_field kd.2)) reg)
    /\ (forall r, r ∈ out ->
          exists d, raw r = VDict d
            /\ normalize_appid_field (identifier_field d) = Ret (Some (appid r))).
Proof.
  intros Hdata Hreg. exists (omap (fun kd => entry_of kd.2) reg).
  split; [by apply read_parsed_registry|].
  rewrite Forall_forall in Hreg.
  assert (forall r, r ∈ omap (fun kd => entry_of kd.2) reg ->
            exists k d, (k, d) ∈ reg /\ raw r = VDict d
              /\ normalize_appid_field (identifier_field d) = Ret (Some (appid r)))
    as Hout.
  { intros r ([k d] & Hin & Hr)%list_elem_of_omap. simpl in Hr.
    destruct (entry_of_fields _ _ Hr) as [Hraw Hn].
    destruct (Hreg _ Hin) as [Hone Hzero]. simpl in *.
    rewrite lookup_chain_identifier in Hn by done. eauto 6. }
  split; [|split].
  - intros k d Hin. destruct (Hreg _ Hin) as [Hone Hzero]. simpl in *. split.
    + intros (r & Hr & Hraw). destruct (Hout r Hr) as (k' & d' & _ & Hraw' & Hn).
      assert (d' = d) as -> by congruence. eauto.
    + intros [a Ha]. rewrite <- lookup_chain_identifier in Ha by done.
      destruct (entry_of d) as [r|] eqn:Hr.
      * exists r. split; [|by apply entry_of_fields].
        apply list_elem_of_omap. by exists (k, d).
      * unfold entry_of in Hr. by rewrite Ha in Hr.
  - apply kept_length. by apply Forall_forall.
  - intros r Hr. destruct (Hout r Hr) as (k & d & _ & Hraw & Hn). eauto.
Qed.

(** C4.  The defect at work.  The entry that stores the integer 0 under the
    text key ["appid"] has an identifier field that normalizes to the
    canonical identifier 0, yet [read_shortcuts], on the parsed file,
    returns no record for it: the chain [ent.get("appid") or
    ent.get(b"appid")] has turned the 0 into [None] before the normalizer
    sees it.  A float zero fares the same.  The same 0 stored under the
    bytes key is kept, with the identifier 0. *)
Theorem read_registry_drops_present_zero :
  (normalize_appid_field (identifier_field zero_entry) = Ret (Some "0")
   /\ lookup_chain zero_entry "appid" = VNone
   /\ read_parsed zero_data = Ret [])
  /\ (normalize_appid_field (identifier_field float_zero_entry) = Ret (Some "0")
      /\ lookup_chain float_zero_entry "appid" = VNone
      /\ read_parsed float_zero_data = Ret [])
  /\ exists r,
       read_parsed zero_bytes_key_data = Ret [r]
       /\ appid r = "0" /\ raw r = VDict zero_bytes_key_entry.
Proof.
  split; [by repeat split|]. split; [by repeat split|].
  eexists. split; [reflexivity|]. by split.
Qed.


(** C10, amended.  An entry that stores the integer 0 or the empty byte
    sequence under the text key ["appid"], and nothing under the bytes key,
    is treated as having no identifier: the lookup chain hands [None] to the
    normalizer and the entry is skipped, although the normalizer maps both 0
    and the empty byte sequence to the text 0.  No record of any result has
    such an entry as its [raw] field. *)
Theorem zero_under_text_key_is_dropped (d : list (Key * PyVal)) :
  zero_under_text_key d ->
  assoc (KBytes (bytes_of "appid")) d = None ->
  get_either (VDict d) "appid" = Ret VNone
  /\ read_entry (VDict d) = Ret None
  /\ normalize_appid_field (VInt 0) = Ret (Some "0")
  /\ normalize_appid_field (VBytes []) = Ret (Some "0")
  /\ (forall data out r, read_parsed data = Ret out -> r ∈ out -> raw r <> VDict d).
Proof.
  intros Hzero Hbytes.
  assert (lookup_chain d "appid" = VNone) as Hchain.
  { unfold lookup_chain, dict_get. rewrite Hbytes.
    by destruct Hzero as [-> | ->]. }
  assert (read_entry (VDict d) = Ret None) as Hentry.
  { rewrite read_entry_dict. unfold entry_of. by rewrite Hchain. }
  split; [by rewrite get_either_dict, Hchain|].
  split; [done|]. split; [done|]. split; [done|].
  intros data out r Hread Hr Hraw. unfold read_parsed in Hread.
  destruct (shortcuts_of data) as [sc|]; simpl in Hread; [|done].
  destruct (py_items sc) as [items|]; simpl in Hread; [|done].
  destruct (read_entries_sound _ _ _ Hread r Hr) as [Hnil|Hsome].
  - by apply elem_of_nil in Hnil.
  - rewrite Hraw, Hentry in Hsome. done.
Qed.
End RegistryClaims.

(** ** The artwork fetcher *)

Lemma write_chunks_spec (p : list string) (cs : list (list byte)) (stop : option exn)
    (w : World) (c0 : list byte) :
  fs w !! p = Some (File c0) ->
  exists w',
    write_chunks p cs stop w
    = (match stop with Some e => Raise e | None => Ret tt end, w')
    /\ fs w' = <[p := File (c0 ++ concat cs)]> (fs w)
    /\ net w' = net w /\ requests w' = requests w
    /\ status_text w' = status_text w /\ dialogs w' = dialogs w.
Proof.
  revert w c0. induction cs as [|c rest IH]; intros w c0 Hp; simpl.
  - exists w. rewrite app_nil_r, insert_id by done.
    by destruct stop.
  - unfold io_bind at 1.
    destruct c as [|x c']; simpl.
    + destruct (IH w c0 Hp) as (w' & Hrun & Hfs & Hrest). exists w'.
      by rewrite Hrun.
    + set (w1 := set_fs (alter (append_content (x :: c')) p (fs w)) w).
      assert (fs w1 !! p = Some (File (c0 ++ x :: c'))) as Hp1.
      { simpl. by rewrite lookup_alter_eq, Hp. }
      destruct (IH w1 _ Hp1) as (w' & Hrun & Hfs & Hrest). exists w'.
      rewrite Hrun. split; [done|]. split; [|done].
      rewrite Hfs. simpl. rewrite <- app_assoc. simpl.
      apply map_eq. intros q. destruct (decide (p = q)) as [<-|Hne].
      * by rewrite !lookup_insert_eq.
      * by rewrite !lookup_insert_ne, lookup_alter_ne.
Qed.

Lemma open_for_writing_lookup (p : list string) (f f' : gmap (list string) Node) :
  open_for_writing p f = Ret f' -> f' = <[p := File []]> f.
Proof.
  unfold open_for_writing.
  destruct (f !! p) as [[|]|]; try done;
    destruct (f !! parent p) as [[|]|]; try done; by intros [= <-].
Qed.

(** C7.  [download_to_file] never raises: from any world and for any
    locator and destination it returns a boolean, having sent one request.
    It returns [True] only if the request was answered with status 200, the
    destination could be opened and the transfer did not break, and then the
    destination holds the whole body; it returns [False] when the request
    raises, when the status is not 200, and when opening the destination or
    the transfer raises. *)
Theorem download_to_file_never_raises (url : string) (out_path : list string)
    (w : World) :
  exists ok w',
    download_to_file url out_path w = (Ret ok, w')
    /\ requests w' = requests w ++ [url]
    /\ (ok = true ->
        exists r, net w url = Ret r /\ status_code r = 200 /\ broken r = None
          /\ returns (open_for_writing out_path (fs w))
          /\ fs w' !! out_path = Some (File (concat (chunks r))))
    /\ (forall e, net w url = Raise e -> ok = false /\ fs w' = fs w)
    /\ (forall r, net w url = Ret r -> status_code r <> 200 ->
          ok = false /\ fs w' = fs w)
    /\ (forall r e, net w url = Ret r -> status_code r = 200 ->
          open_for_writing out_path (fs w) = Raise e \/ broken r = Some e ->
          ok = false)
    /\ (forall r, net w url = Ret r -> status_code r = 200 ->
          returns (open_for_writing out_path (fs w)) -> broken r = None ->
          ok = true).
Proof.
  unfold download_to_file, io_bind at 1, io_try at 1, io_bind at 1, requests_get.
  destruct (net w url) as [r|e] eqn:Hnet; simpl.
  2: { exists false, (log_request url w). by io_cases. }
  destruct (Z.eqb_spec (status_code r) 200) as [Hs|Hs]; simpl.
  2: { exists false, (log_request url w). by io_cases. }
  unfold io_try, io_bind at 1, io_fs. simpl.
  destruct (open_for_writing out_path (fs w)) as [f|e] eqn:Hopen; simpl.
  2: { exists false, (log_request url w). by io_cases. }
  apply open_for_writing_lookup in Hopen as Hf.
  set (w1 := set_fs f (log_request url w)).
  assert (fs w1 !! out_path = Some (File [])) as Hp1.
  { simpl. subst f. by rewrite lookup_insert_eq. }
  destruct (write_chunks_spec out_path (chunks r) (broken r) w1 [] Hp1)
    as (w2 & Hrun & Hfs & _ & Hreq & _).
  unfold io_bind. rewrite Hrun.
  destruct (broken r) as [e|] eqn:Hb.
  - exists false, w2. by io_cases.
  - exists true, w2. io_cases; try done.
    exists r. rewrite Hfs, lookup_insert_eq. repeat split; try done. by eexists.
Qed.

Lemma download_to_file_requests (url : string) (out_path : list string) (w : World) :
  exists ok w',
    download_to_file url out_path w = (Ret ok, w')
    /\ requests w' = requests w ++ [url].
Proof.
  unfold download_to_file, io_bind at 1, io_try at 1, io_bind at 1, requests_get.
  destruct (net w url) as [r|e]; simpl; [|by eexists _, _].
  destruct (negb (status_code r =? 200)); [by eexists _, _|].
  unfold io_try, io_bind at 1, io_fs. simpl.
  destruct (open_for_writing out_path (fs w)) as [f|e] eqn:Hopen; simpl;
    [|by eexists _, _].
  apply open_for_writing_lookup in Hopen as Hf.
  set (w1 := set_fs f (log_request url w)).
  assert (fs w1 !! out_path = Some (File [])) as Hp1.
  { simpl. subst f. by rewrite lookup_insert_eq. }
  destruct (write_chunks_spec out_path (chunks r) (broken r) w1 [] Hp1)
    as (w2 & Hrun & _ & _ & Hreq & _).
  unfold io_bind. rewrite Hrun.
  destruct (broken r); eexists _, _; (split; [done|]); by rewrite Hreq.
Qed.

(** ** The side-file writer *)

Lemma copy2_file_target (src dst : list string) (f f' : gmap (list string) Node) :
  is_dir f dst = false ->
  copy2 src dst f = Ret f' ->
  exists content,
    f !! src = Some (File content) /\ f' = <[dst := File content]> f.
Proof.
  unfold copy2, read_file. intros ->.
  destruct (bool_decide (src = dst) && path_exists f src); [done|].
  destruct (f !! src) as [[content|]|]; simpl; try done.
  destruct (open_for_writing dst f) as [f1|] eqn:Hopen; simpl; [|done].
  intros [= <-]. exists content. split; [done|].
  apply open_for_writing_lookup in Hopen as ->.
  by rewrite insert_insert_eq.
Qed.

Section SidecarClaims.
Context {RT : Runtime}.

Lemma copy_or_write_json_requests (grid_dir : list string)
    (source_appid target_appid : string) (w : World) :
  exists status w',
    copy_or_write_json_for_target grid_dir source_appid target_appid w
    = (Ret status, w')
    /\ requests w' = requests w.
Proof.
  unfold copy_or_write_json_for_target, io_try.
  destruct (path_exists (fs w) _).
  - unfold io_bind, io_fs. destruct (copy2 _ _ (fs w)); simpl; by eexists _, _.
  - unfold io_bind at 1, io_fs.
    destruct (open_for_writing _ (fs w)); simpl; by eexists _, _.
Qed.

(** Away from a directory in the place of the target.  Let the target side
    file [<target>.json] of the artwork directory not be a directory.  [copy_or_write_json_for_target] never
    raises and sends no request.  When the source side file exists: if
    [shutil.copy2] succeeds the answer is "JSON copied" and the target holds
    the bytes of the source; if it raises the answer is "JSON failed".  When
    the source does not exist: if the target can be opened the answer is
    "JSON written (default)" and the target holds the default document; if
    opening raises the answer is "JSON failed".  A failed call leaves the
    files as they were. *)
Theorem copy_or_write_json_outcomes (grid_dir : list string)
    (source_appid target_appid : string) (w : World) :
  let src := path_join grid_dir (source_appid +:+ ".json") in
  let dst := path_join grid_dir (target_appid +:+ ".json") in
  is_dir (fs w) dst = false ->
  exists status w',
    copy_or_write_json_for_target grid_dir source_appid target_appid w
    = (Ret status, w')
    /\ requests w' = requests w
    /\ (path_exists (fs w) src = true ->
        (forall f, copy2 src dst (fs w) = Ret f ->
           status = "JSON copied"
           /\ exists content, fs w !! src = Some (File content)
                /\ fs w' = <[dst := File content]> (fs w))
        /\ (forall e, copy2 src dst (fs w) = Raise e ->
              status = "JSON failed" /\ fs w' = fs w))
    /\ (path_exists (fs w) src = false ->
        (forall f, open_for_writing dst (fs w) = Ret f ->
           status = "JSON written (default)"
           /\ fs w' = <[dst := File default_json_bytes]> (fs w))
        /\ (forall e, open_for_writing dst (fs w) = Raise e ->
              status = "JSON failed" /\ fs w' = fs w)).
Proof.
  intros src dst Hdst. unfold copy_or_write_json_for_target.
  fold src dst. unfold io_try.
  destruct (path_exists (fs w) src) eqn:Hsrc.
  - unfold io_bind, io_fs.
    destruct (copy2 src dst (fs w)) as [f|e] eqn:Hcopy; simpl.
    + destruct (copy2_file_target _ _ _ _ Hdst Hcopy) as (content & Hc & ->).
      eexists _, _. split; [done|]. io_cases. eauto.
    + eexists _, _. split; [done|]. by io_cases.
  - unfold io_bind at 1, io_fs.
    destruct (open_for_writing dst (fs w)) as [f|e] eqn:Hopen; simpl.
    + apply open_for_writing_lookup in Hopen as ->.
      eexists _, _. split; [done|]. io_cases. simpl.
      apply map_eq. intros q. destruct (decide (dst = q)) as [<-|Hne].
      * by rewrite lookup_alter_eq, !lookup_insert_eq.
      * by rewrite lookup_alter_ne, !lookup_insert_ne.
    + eexists _, _. split; [done|]. by io_cases.
Qed.
End SidecarClaims.

(** ** The directory resolver *)

Lemma child_name_spec (base p : list string) (n : string) :
  child_name base p = Some n <-> p = base ++ [n].
Proof.
  unfold child_name. split.
  - destruct (last p) as [m|] eqn:Hlast; [|done].
    apply last_Some in Hlast as [l' ->].
    rewrite removelast_last. case_decide; [|done]. by intros [= <-]; subst.
  - intros ->. rewrite last_snoc, removelast_last. by rewrite decide_True.
Qed.

Lemma iterdir_names (files : gmap (list string) Node) (base : list string) :
  files !! base = Some Dir ->
  exists names,
    iterdir files base = Ret names
    /\ forall n, n ∈ names <-> is_Some (files !! (base ++ [n])).
Proof.
  intros Hbase. unfold iterdir. rewrite Hbase. eexists. split; [done|].
  intros n. rewrite list_elem_of_omap. split.
  - intros (p & Hp & Hn). apply child_name_spec in Hn as ->.
    apply list_elem_of_fmap in Hp as ([p node] & -> & Hin).
    apply elem_of_map_to_list in Hin. by exists node.
  - intros [node Hnode]. exists (base ++ [n]). split; [|by apply child_name_spec].
    apply list_elem_of_fmap. exists (base ++ [n], node). split; [done|].
    by apply elem_of_map_to_list.
Qed.

Lemma qualifies_test (files : gmap (list string) Node) (base : list string)
    (n : string) :
  is_dir files (path_join base n) && PyStr.isdigit n = true <-> qualifies files base n.
Proof.
  unfold qualifies, is_dir, path_join. rewrite andb_true_iff.
  destruct (files !! (base ++ [n])) as [[|]|]; split; intros [? ?]; done.
Qed.

Lemma first_account_sorted (files : gmap (list string) Node) (base : list string)
    (l : list string) :
  StronglySorted String.le l ->
  match first_account files base l with
  | Some (n, p) =>
      n ∈ l /\ p = base ++ [n] /\ qualifies files base n
      /\ forall m, m ∈ l -> qualifies files base m -> String.le n m
  | None => forall m, m ∈ l -> ~ qualifies files base m
  end.
Proof.
  induction 1 as [|n l Hsorted IH Hleast]; simpl.
  - intros m Hm. by apply elem_of_nil in Hm.
  - destruct (is_dir files (path_join base n) && PyStr.isdigit n) eqn:Htest.
    + apply qualifies_test in Htest.
      split; [by left|]. split; [done|]. split; [done|].
      intros m [->|Hm]%elem_of_cons _; [done|].
      rewrite Forall_forall in Hleast. by apply Hleast.
    + assert (~ qualifies files base n) as Hn.
      { intros Hq%qualifies_test. congruence. }
      destruct (first_account files base l) as [[m p]|].
      * destruct IH as (Hm & Hp & Hq & Hmin).
        split; [by right|]. split; [done|]. split; [done|].
        intros m' [->|Hm']%elem_of_cons Hq'; [done|]. by apply Hmin.
      * intros m [->|Hm]%elem_of_cons; [done|]. by apply IH.
Qed.

(** C8.  [find_steam_userdata] returns nothing when the userdata directory
    does not exist.  When it is a directory, the answer depends only on its
    subdirectories: it is the subdirectory whose name passes [isdigit] and
    comes first in character order among those that do, paired with that
    name, and nothing when no subdirectory has such a name. *)
Theorem find_steam_userdata_first_numeric (home : list string)
    (files : gmap (list string) Node) :
  let base := STEAM_USERDATA_BASE home in
  (files !! base = None -> find_steam_userdata home files = Ret None)
  /\ (files !! base = Some Dir ->
      exists found,
        find_steam_userdata home files = Ret found
        /\ match found with
           | Some (name, p) =>
               p = base ++ [name] /\ qualifies files base name
               /\ forall other, qualifies files base other -> String.le name other
           | None => forall other, ~ qualifies files base other
           end).
Proof.
  intros base. unfold find_steam_userdata, path_exists. fold base. split.
  - by intros ->.
  - intros Hbase. destruct (iterdir_names files base Hbase) as (names & Hiter & Hnames).
    rewrite Hbase, Hiter. simpl. eexists. split; [done|].
    pose proof (first_account_sorted files base (sorted_names names)
                  (StronglySorted_merge_sort _ _)) as Hfirst.
    assert (forall m, qualifies files base m -> m ∈ sorted_names names) as Hall.
    { intros m [Hm _]. unfold sorted_names. rewrite merge_sort_Permutation.
      apply Hnames. by exists Dir. }
    destruct (first_account files base (sorted_names names)) as [[n p]|].
    + destruct Hfirst as (_ & Hp & Hq & Hmin).
      split; [done|]. split; [done|].
      intros other Hother. apply Hmin; [by apply Hall | done].
    + intros other Hother. by apply (Hfirst other); [apply Hall|].
Qed.

(** ** The apply action *)

Lemma logs_ret {A} (a : A) : logs (io_ret a) [].
Proof. intros w. exists a, w. by rewrite app_nil_r. Qed.

Lemma logs_bind {A B} (m : IO A) (k : A -> IO B) (u1 u2 : list string) :
  logs m u1 -> (forall a, logs (k a) u2) -> logs (io_bind m k) (u1 ++ u2).
Proof.
  intros Hm Hk w. destruct (Hm w) as (a & w1 & Hrun1 & Hreq1).
  destruct (Hk a w1) as (b & w2 & Hrun2 & Hreq2).
  exists b, w2. unfold io_bind. rewrite Hrun1, Hrun2, Hreq2, Hreq1.
  by rewrite app_assoc.
Qed.

Lemma logs_setText (t : string) : logs (setText t) [].
Proof. intros w. eexists _, _. split; [done|]. simpl. by rewrite app_nil_r. Qed.

Lemma logs_text : logs text [].
Proof. intros w. eexists _, _. split; [done|]. by rewrite app_nil_r. Qed.

Lemma logs_download (url : string) (out_path : list string) :
  logs (download_to_file url out_path) [url].
Proof. intros w. apply download_to_file_requests. Qed.

Section ApplyClaims.
Context {RT : Runtime}.

Lemma logs_sidecar (grid_dir : list string) (source_appid target_appid : string) :
  logs (copy_or_write_json_for_target grid_dir source_appid target_appid) [].
Proof.
  intros w.
  destruct (copy_or_write_json_requests grid_dir source_appid target_appid w)
    as (st & w' & Hrun & Hreq).
  exists st, w'. by rewrite app_nil_r.
Qed.

(** C9.  When the source identifier, the content of the AppID field without
    the blanks around it, is not made of digits only, [on_apply] returns
    having sent no request and written no file: the files, the request log
    and the status label are as before, and one warning box was shown. *)
Theorem on_apply_rejects_before_any_effect (self : Window) (w : World) :
  PyStr.isdigit (PyStr.strip (win_appid_input self)) = false ->
  exists w',
    on_apply self w = (Ret tt, w')
    /\ fs w' = fs w
    /\ requests w' = requests w
    /\ status_text w' = status_text w
    /\ exists title message, dialogs w' = dialogs w ++ [(title, message)].
Proof.
  intros Hdigit. unfold on_apply. rewrite Hdigit. simpl.
  destruct (win_current_row self <? 0); eexists; (split; [done|]); simpl; eauto 6.
Qed.

(** With a selected row and a numeric identifier the four artwork files are
    requested, in order, from the identifier without surrounding blanks. *)
Lemma on_apply_requests (self : Window) (w : World) (e : ShortcutEntry) :
  0 <= win_current_row self ->
  nth_error (win_shortcuts self) (Z.to_nat (win_current_row self)) = Some e ->
  PyStr.isdigit (PyStr.strip (win_appid_input self)) = true ->
  exists w',
    on_apply self w = (Ret tt, w')
    /\ requests w'
       = requests w
         ++ map (cdn_url (PyStr.strip (win_appid_input self)))
              ["library_600x900_2x.jpg"; "library_411x184.jpg";
               "library_hero.jpg"; "logo.png"].
Proof.
  intros Hrow He Hdigit.
  assert (exists urls, logs (on_apply self) urls
            /\ urls = map (cdn_url (PyStr.strip (win_appid_input self)))
                        ["library_600x900_2x.jpg"; "library_411x184.jpg";
                         "library_hero.jpg"; "logo.png"]) as (urls & Hlogs & ->).
  { unfold on_apply.
    destruct (Z.ltb_spec (win_current_row self) 0) as [|_]; [lia|].
    rewrite Hdigit. simpl negb. cbv iota.
    unfold shortcut_at. rewrite He.
    eexists. split.
    - repeat (eapply logs_bind; [by auto using logs_ret, logs_setText, logs_text,
                                   logs_download, logs_sidecar | intros ?]).
      apply logs_setText.
    - done. }
  destruct (Hlogs w) as ([] & w' & Hrun & Hreq). eauto.
Qed.
End ApplyClaims.

(** * The model run on the sample data *)

Example normalize_samples :
  map (normalize_appid_field (RT := sample_runtime))
      [VNone; VInt (-1); VInt 0; VInt (-1294967296); VBytes [];
       VBytes [x01; x02; x03; x04; x05]; VStr "abc"; VStr " -1 "; VDict []]
  = [Ret None; Ret (Some "4294967295"); Ret (Some "0"); Ret (Some "3000000000");
     Ret (Some "0"); Ret (Some "67305985"); Ret None; Ret (Some "4294967295");
     Ret None].
Proof. reflexivity. Qed.

Example int_literal_samples :
  map PyInt.of_text ["+5"; "-5"; "1_000"; "007"; " 12 "; "1__0"; "_1"; "1 2"; "0x10"]
  = [Ret 5; Ret (-5); Ret 1000; Ret 7; Ret 12; Raise ValueError; Raise ValueError;
     Raise ValueError; Raise ValueError].
Proof. reflexivity. Qed.

(** Five entries, two of them without an identifier that can be read (entry
    1 has none, entry 3 holds text that is no number): three records. *)
Example read_sample_registry :
  read_parsed (RT := sample_runtime) sample_data
  = Ret [ {| appid := "3000000000"; AppName := "Alpha"; Exe := "/opt/alpha";
             raw := VDict [(KStr "appid", VInt (-1294967296));
                           (KStr "AppName", VStr "Alpha");
                           (KStr "Exe", VStr "/opt/alpha")] |};
          {| appid := "67305985"; AppName := "Gamma"; Exe := "/opt/gamma";
             raw := VDict [(KStr "appid", VBytes [x01; x02; x03; x04]);
                           (KStr "AppName", VBytes (bytes_of "Gamma"));
                           (KStr "Exe", VStr "/opt/gamma")] |};
          {| appid := "271590"; AppName := "Epsilon"; Exe := EmptyString;
             raw := VDict [(KBytes (bytes_of "appid"), VStr "271590");
                           (KBytes (bytes_of "AppName"), VStr "Epsilon")] |} ].
Proof. reflexivity. Qed.

(** Of the numeric subdirectories 9 and 10 the resolver takes 10, the first
    in character order; 0123 is a file and anonymous is not numeric. *)
Example find_sample_userdata :
  find_steam_userdata sample_home sample_fs
  = Ret (Some ("10", sample_userdata ++ ["10"])).
Proof. vm_compute. reflexivity. Qed.

Example apply_sample :
  let '(result, w) :=
    on_apply (RT := sample_runtime) (sample_window " 271590 ") sample_world in
  result = Ret tt
  /\ requests w = map (cdn_url "271590")
                    ["library_600x900_2x.jpg"; "library_411x184.jpg";
                     "library_hero.jpg"; "logo.png"]
  /\ fs w !! (sample_grid ++ ["3000000000p.jpg"]) = Some (File [x01; x02; x03])
  /\ fs w !! (sample_grid ++ ["3000000000_logo.png"]) = None
  /\ fs w !! (sample_grid ++ ["3000000000.json"])
     = Some (File (bytes_of "logo placement of 271590")).
Proof. vm_compute. repeat split; reflexivity. Qed.

(** * Witnesses and counterexamples *)

(** C3 at the text abc123. *)
Lemma normalize_never_raises_witness :
  ~ returns (PyInt.of_text "abc123")
  /\ normalize_appid_field (RT := sample_runtime) (VStr "abc123") = Ret None.
Proof.
  assert (~ returns (PyInt.of_text "abc123")) as H by (intros [z Hz]; discriminate Hz).
  split; [exact H|].
  exact (proj1 (proj2 (normalize_never_raises (RT := sample_runtime) VNone "abc123")) H).
Defined.

(** The sample registry: five entries, three records. *)
Lemma read_registry_keeps_what_normalizes_witness :
  shortcuts_of sample_data = Ret (VDict (registry_items sample_registry))
  /\ Forall (fun kd => one_key_form kd.2 "appid" /\ ~ zero_like_under_text_key kd.2)
            sample_registry
  /\ exists out,
       read_parsed (RT := sample_runtime) sample_data = Ret out
       /\ length out = 3%nat.
Proof.
  assert (Forall (fun kd => one_key_form kd.2 "appid" /\ ~ zero_like_under_text_key kd.2)
                 sample_registry) as Hreg.
  { unfold sample_registry, one_key_form, zero_like_under_text_key, zero_under_text_key.
    repeat constructor; simpl; try (by left); try (by right);
      intros [[H|H]|[negative H]]; discriminate H. }
  split; [reflexivity|]. split; [exact Hreg|].
  destruct (read_registry_keeps_what_normalizes (RT := sample_runtime)
              sample_data sample_registry eq_refl Hreg)
    as (out & Hread & _ & Hlen & _).
  exists out. split; [exact Hread|]. exact Hlen.
Defined.



(** C10 as first stated fails on an entry that stores the integer 0 under
    the bytes key: the chain returns that 0, and the entry is in the result
    with the identifier 0. *)
Lemma zero_bytes_key_counterexample :
  exists out r,
    read_parsed (RT := sample_runtime) zero_bytes_key_data = Ret out
    /\ r ∈ out
    /\ raw r = VDict zero_bytes_key_entry
    /\ identifier_field zero_bytes_key_entry = VInt 0
    /\ appid r = "0".
Proof.
  eexists _, _. split; [reflexivity|]. split; [by left|]. by repeat split.
Qed.

(** C10, amended, at an entry that stores the integer 0 under the text
    key. *)
Lemma zero_under_text_key_is_dropped_witness :
  zero_under_text_key zero_entry
  /\ assoc (KBytes (bytes_of "appid")) zero_entry = None
  /\ read_entry (RT := sample_runtime) (VDict zero_entry) = Ret None
  /\ read_parsed (RT := sample_runtime) zero_data = Ret [].
Proof.
  assert (zero_under_text_key zero_entry) as Hzero by (left; reflexivity).
  split; [exact Hzero|]. split; [reflexivity|].
  split; [|reflexivity].
  exact (proj1 (proj2 (zero_under_text_key_is_dropped (RT := sample_runtime)
                         zero_entry Hzero eq_refl))).
Defined.

(** C6.  The defect at work.  The source side file exists and the place
    of the target side file is taken by a directory: [shutil.copy2] puts
    the copy inside that directory, under the source's name, the target is
    no copy of the source, and the call answers "JSON copied".  Without a
    source side file the same target makes the call answer "JSON failed". *)
Theorem copy_into_directory_reports_copied :
  let src := path_join sample_grid "271590.json" in
  let dst := path_join sample_grid "999999999.json" in
  let '(status, w') :=
    copy_or_write_json_for_target (RT := sample_runtime)
      sample_grid "271590" "999999999" sample_world in
  let '(status_without_source, _) :=
    copy_or_write_json_for_target (RT := sample_runtime)
      sample_grid "404" "999999999" sample_world in
  path_exists (fs sample_world) src = true
  /\ fs sample_world !! dst = Some Dir
  /\ status = Ret "JSON copied"
  /\ fs w' !! dst = Some Dir
  /\ fs w' !! dst <> fs sample_world !! src
  /\ fs w' !! (dst ++ ["271590.json"]) = fs sample_world !! src
  /\ status_without_source = Ret "JSON failed".
Proof. vm_compute. repeat split; try reflexivity. discriminate. Qed.

(** A target that does not exist yet. *)
Lemma copy_or_write_json_outcomes_witness :
  let src := path_join sample_grid "271590.json" in
  let dst := path_join sample_grid "3000000000.json" in
  is_dir (fs sample_world) dst = false
  /\ exists status w',
       copy_or_write_json_for_target (RT := sample_runtime)
         sample_grid "271590" "3000000000" sample_world
       = (Ret status, w')
       /\ requests w' = requests sample_world
       /\ (path_exists (fs sample_world) src = true ->
           (forall f, copy2 src dst (fs sample_world) = Ret f ->
              status = "JSON copied"
              /\ exists content, fs sample_world !! src = Some (File content)
                   /\ fs w' = <[dst := File content]> (fs sample_world))
           /\ (forall e, copy2 src dst (fs sample_world) = Raise e ->
                 status = "JSON failed" /\ fs w' = fs sample_world))
       /\ (path_exists (fs sample_world) src = false ->
           (forall f, open_for_writing dst (fs sample_world) = Ret f ->
              status = "JSON written (default)"
              /\ fs w' = <[dst := File (default_json_bytes (RT := sample_runtime))]>
                           (fs sample_world))
           /\ (forall e, open_for_writing dst (fs sample_world) = Raise e ->
                 status = "JSON failed" /\ fs w' = fs sample_world)).
Proof.
  split; [vm_compute; reflexivity|].
  apply (copy_or_write_json_outcomes (RT := sample_runtime)
           sample_grid "271590" "3000000000" sample_world).
  vm_compute. reflexivity.
Defined.

(** A source side file that exists is copied; without one the default
    document is written; a source that is also the target fails. *)
Example sidecar_samples :
  let run source target :=
    let '(status, w') :=
      copy_or_write_json_for_target (RT := sample_runtime)
        sample_grid source target sample_world in
    (status, fs w' !! path_join sample_grid (target +:+ ".json")) in
  run "271590" "3000000000"
  = (Ret "JSON copied", Some (File (bytes_of "logo placement of 271590")))
  /\ run "730" "3000000000"
     = (Ret "JSON written (default)", Some (File (bytes_of "{}")))
  /\ run "271590" "271590"
     = (Ret "JSON failed", Some (File (bytes_of "logo placement of 271590"))).
Proof. vm_compute. repeat split; reflexivity. Qed.

(** A transfer that breaks after the first chunk: the answer is [False] and
    the file keeps what was written. *)
Example download_samples :
  let run response :=
    let '(ok, w') :=
      download_to_file "https://example.invalid/a.jpg"
        (path_join sample_grid "1.jpg")
        {| fs := sample_fs; net := fun _ => response; requests := [];
           status_text := EmptyString; dialogs := [] |} in
    (ok, fs w' !! path_join sample_grid "1.jpg") in
  run (Ret {| status_code := 200; chunks := [[x01]; [x02]]; broken := None |})
  = (Ret true, Some (File [x01; x02]))
  /\ run (Ret {| status_code := 200; chunks := [[x01]];
                 broken := Some ChunkedEncodingError |})
     = (Ret false, Some (File [x01]))
  /\ run (Ret {| status_code := 404; chunks := [[x01]]; broken := None |})
     = (Ret false, None)
  /\ run (Raise ConnectionError) = (Ret false, None).
Proof. vm_compute. repeat split; reflexivity. Qed.

(** C7 at the hero banner of 271590. *)
Lemma download_to_file_never_raises_witness :
  let url := cdn_url "271590" "library_hero.jpg" in
  let out_path := path_join sample_grid "3000000000_hero.jpg" in
  let w := sample_world in
  exists ok w',
    download_to_file url out_path w = (Ret ok, w')
    /\ requests w' = requests w ++ [url]
    /\ (ok = true ->
        exists r, net w url = Ret r /\ status_code r = 200 /\ broken r = None
          /\ returns (open_for_writing out_path (fs w))
          /\ fs w' !! out_path = Some (File (concat (chunks r))))
    /\ (forall e, net w url = Raise e -> ok = false /\ fs w' = fs w)
    /\ (forall r, net w url = Ret r -> status_code r <> 200 ->
          ok = false /\ fs w' = fs w)
    /\ (forall r e, net w url = Ret r -> status_code r = 200 ->
          open_for_writing out_path (fs w) = Raise e \/ broken r = Some e ->
          ok = false)
    /\ (forall r, net w url = Ret r -> status_code r = 200 ->
          returns (open_for_writing out_path (fs w)) -> broken r = None ->
          ok = true).
Proof.
  exact (download_to_file_never_raises
           (cdn_url "271590" "library_hero.jpg")
           (path_join sample_grid "3000000000_hero.jpg") sample_world).
Defined.

(** C8 at the sample files, once for a home that has no userdata directory
    and once for one that has. *)
Lemma find_steam_userdata_first_numeric_witness :
  sample_fs !! STEAM_USERDATA_BASE sample_home = Some Dir
  /\ sample_fs !! STEAM_USERDATA_BASE ["nobody"] = None
  /\ find_steam_userdata ["nobody"] sample_fs = Ret None
  /\ exists found,
       find_steam_userdata sample_home sample_fs = Ret found
       /\ match found with
          | Some (name, p) =>
              p = STEAM_USERDATA_BASE sample_home ++ [name]
              /\ qualifies sample_fs (STEAM_USERDATA_BASE sample_home) name
              /\ forall other,
                   qualifies sample_fs (STEAM_USERDATA_BASE sample_home) other ->
                   String.le name other
          | None =>
              forall other,
                ~ qualifies sample_fs (STEAM_USERDATA_BASE sample_home) other
          end.
Proof.
  assert (sample_fs !! STEAM_USERDATA_BASE sample_home = Some Dir) as Hbase
    by (vm_compute; reflexivity).
  assert (sample_fs !! STEAM_USERDATA_BASE ["nobody"] = None) as Hnone
    by (vm_compute; reflexivity).
  split; [exact Hbase|]. split; [exact Hnone|]. split.
  - exact (proj1 (find_steam_userdata_first_numeric ["nobody"] sample_fs) Hnone).
  - exact (proj2 (find_steam_userdata_first_numeric sample_home sample_fs) Hbase).
Defined.

(** C9 at the text abc123. *)
Lemma on_apply_rejects_abc123_witness :
  PyStr.isdigit (PyStr.strip "abc123") = false
  /\ exists w',
       on_apply (RT := sample_runtime) (sample_window "abc123") sample_world
       = (Ret tt, w')
       /\ fs w' = fs sample_world
       /\ requests w' = requests sample_world
       /\ status_text w' = status_text sample_world
       /\ exists title message,
            dialogs w' = dialogs sample_world ++ [(title, message)].
Proof.
  split; [reflexivity|].
  apply (on_apply_rejects_before_any_effect (RT := sample_runtime)
           (sample_window "abc123") sample_world).
  reflexivity.
Defined.

(** * Further properties *)

(** ** The normalizer *)

Lemma from_bytes_little_app (a b : list byte) :
  PyInt.from_bytes_little (a ++ b)
  = PyInt.from_bytes_little a + 256 ^ Z.of_nat (length a) * PyInt.from_bytes_little b.
Proof.
  induction a as [|x a IH]; simpl PyInt.from_bytes_little; simpl length.
  - simpl. lia.
  - rewrite IH, Nat2Z.inj_succ, Z.pow_succ_r by lia. lia.
Qed.

Lemma from_bytes_little_zeros (n : nat) :
  PyInt.from_bytes_little (replicate n x00) = 0.
Proof. induction n as [|n IH]; simpl; [done|]. rewrite IH. done. Qed.

Section NormalizerMore.
Context {RT : Runtime}.

Lemma normalize_text (s : string) :
  normalize_appid_field (VStr s)
  = match PyInt.of_text s with
    | Ret z => Ret (Some (PyInt.to_text (z mod 2 ^ 32)))
    | Raise _ => Ret None
    end.
Proof.
  cbv [normalize_appid_field normalize_as_int py_int py_str try_except bind].
  destruct (PyInt.of_text s); [by rewrite land_mask32 | done].
Qed.

(** A float that has an integer part is normalized as that integer; an
    infinity and a NaN, whose texts [int] rejects as well, give nothing. *)
Lemma normalize_float (x : PyFloat) :
  normalize_appid_field (VFloat x)
  = match float_trunc x with
    | Ret z => Ret (Some (PyInt.to_text (z mod 2 ^ 32)))
    | Raise _ => Ret None
    end.
Proof.
  destruct x as [negative|negative m e|negative|];
    cbv [normalize_appid_field normalize_as_int py_int float_trunc try_except bind].
  - by rewrite land_mask32.
  - by rewrite land_mask32.
  - by destruct negative.
  - done.
Qed.

Lemma normalize_result_lemma (raw : PyVal) (a : string) :
  normalize_appid_field raw = Ret (Some a) -> canonical_id a.
Proof.
  intros Hn.
  assert (exists z, a = PyInt.to_text (z mod 2 ^ 32)) as [z ->].
  { destruct raw as [|v|x|b|s|d].
    - done.
    - rewrite normalize_int in Hn. exists v. congruence.
    - rewrite normalize_float in Hn.
      destruct (float_trunc x) as [z|]; [|done]. exists z. congruence.
    - rewrite normalize_bytes in Hn. exists (PyInt.from_bytes_little b). congruence.
    - rewrite normalize_text in Hn.
      destruct (PyInt.of_text s) as [z|]; [|done]. exists z. congruence.
    - by rewrite normalize_dict in Hn. }
  exists (z mod 2 ^ 32). split; [|done]. apply Z.mod_pos_bound. lia.
Qed.

(** X1.  Whatever [normalize_appid_field] returns as an identifier is the
    decimal text of an unsigned 32-bit value (the unmasked last-resort
    branch never produces anything else), and normalizing that text again
    gives it back. *)
Theorem normalize_result_is_canonical (raw : PyVal) (a : string) :
  normalize_appid_field raw = Ret (Some a) ->
  canonical_id a /\ normalize_appid_field (VStr a) = Ret (Some a).
Proof.
  intros Hn. pose proof (normalize_result_lemma raw a Hn) as Hc.
  split; [done|]. destruct Hc as (n & Hn32 & ->).
  by rewrite normalize_text, of_text_to_text, Z.mod_small.
Qed.

(** X2.  Two integers get the same identifier exactly when they agree
    modulo 2^32. *)
Theorem normalize_int_collisions (a b : Z) :
  normalize_appid_field (VInt a) = normalize_appid_field (VInt b)
  <-> a mod 2 ^ 32 = b mod 2 ^ 32.
Proof.
  rewrite !normalize_int. split.
  - intros [= H]. by apply to_text_inj.
  - by intros ->.
Qed.

(** X3.  A text that [int] accepts (blanks around it, a sign, underscores
    between digits) is normalized as the integer it denotes. *)
Theorem normalize_text_as_integer (s : string) (z : Z) :
  PyInt.of_text s = Ret z ->
  normalize_appid_field (VStr s) = normalize_appid_field (VInt z).
Proof. intros H. by rewrite normalize_text, H, normalize_int. Qed.

(** X4.  Of a byte sequence only the first four bytes count, a shorter one
    counting as if followed by zero bytes. *)
Theorem normalize_bytes_low_four (b : list byte) :
  normalize_appid_field (VBytes b)
  = normalize_appid_field (VBytes (take 4 (b ++ replicate 4 x00))).
Proof.
  rewrite !normalize_bytes. do 3 f_equal.
  set (l := b ++ replicate 4 x00).
  assert (PyInt.from_bytes_little b = PyInt.from_bytes_little l) as ->.
  { unfold l. rewrite from_bytes_little_app, from_bytes_little_zeros. lia. }
  rewrite <- (take_drop 4 l) at 1.
  assert (length (take 4 l) = 4%nat) as Hlen.
  { rewrite length_take. unfold l. rewrite length_app, length_replicate. lia. }
  rewrite from_bytes_little_app, Hlen.
  change (256 ^ Z.of_nat 4) with (2 ^ 32).
  by rewrite (Z.mul_comm (2 ^ 32)), Z_mod_plus_full.
Qed.
End NormalizerMore.

(** ** The registry reader *)

Section RegistryMore.
Context {RT : Runtime}.


Lemma read_entry_raw (ent : PyVal) (e : ShortcutEntry) :
  read_entry ent = Ret (Some e) ->
  raw e = ent /\ canonical_id (appid e).
Proof.
  destruct ent as [| | | | |d]; try done.
  rewrite read_entry_dict. intros [= He].
  destruct (entry_of_fields _ _ He) as [Hraw Hn].
  split; [done|]. by apply normalize_result_lemma in Hn.
Qed.

Lemma read_entries_of_values (its : list (Key * PyVal))
    (ds : list (list (Key * PyVal))) (acc : list ShortcutEntry) :
  its.*2 = VDict <$> ds ->
  read_entries its acc = Ret (acc ++ omap entry_of ds).
Proof.
  revert ds acc. induction its as [|[k ent] its IH]; intros [|d ds] acc; try done.
  - intros _. simpl. by rewrite app_nil_r.
  - intros [= -> Hrest]. simpl. rewrite read_entry_dict. simpl.
    rewrite (IH ds) by done.
    destruct (entry_of d); simpl; [|done]. by rewrite <- app_assoc.
Qed.

Lemma read_entries_values (its : list (Key * PyVal))
    (acc out : list ShortcutEntry) :
  read_entries its acc = Ret out ->
  exists ds, its.*2 = VDict <$> ds /\ out = acc ++ omap entry_of ds.
Proof.
  revert acc. induction its as [|[k ent] its IH]; intros acc; simpl.
  - intros [= <-]. exists []. by rewrite app_nil_r.
  - destruct ent as [| | | | |d]; try done.
    rewrite read_entry_dict. simpl. intros (ds & Hvalues & ->)%IH.
    exists (d :: ds). split; [simpl; f_equal; exact Hvalues|].
    simpl. destruct (entry_of d); simpl; [|done]. by rewrite <- app_assoc.
Qed.

Lemma read_entries_sublist (its : list (Key * PyVal))
    (acc out : list ShortcutEntry) :
  read_entries its acc = Ret out ->
  exists new, out = acc ++ new /\ sublist (raw <$> new) (its.*2).
Proof.
  revert acc. induction its as [|[k ent] its IH]; intros acc; simpl.
  - intros [= <-]. exists []. by rewrite app_nil_r.
  - destruct (read_entry ent) as [step|] eqn:Hstep; simpl; [|done].
    intros (new & -> & Hsub)%IH. destruct step as [e|].
    + exists (e :: new). rewrite <- app_assoc. split; [done|].
      simpl. destruct (read_entry_raw _ _ Hstep) as [-> _]. by constructor.
    + exists new. split; [done|]. by constructor.
Qed.

(** X5.  When the loop returns, every value of the mapping is a field
    mapping and the result is what was there before followed by the records
    of these field mappings, in their order, each contributing the record
    [entry_of] builds from it or nothing.  So the [raw] fields of the new
    records are a sublist of the values of the mapping, and the keys play no
    part: any mapping with the same values in the same order gives the same
    result. *)
Theorem read_entries_keeps_order (its : list (Key * PyVal))
    (acc out : list ShortcutEntry) :
  read_entries its acc = Ret out ->
  (exists ds, its.*2 = VDict <$> ds /\ out = acc ++ omap entry_of ds)
  /\ (exists new, out = acc ++ new /\ sublist (raw <$> new) (its.*2))
  /\ (forall its', its'.*2 = its.*2 -> read_entries its' acc = Ret out).
Proof.
  intros Hread. destruct (read_entries_values _ _ _ Hread) as (ds & Hvalues & ->).
  split; [by exists ds|]. split; [by apply read_entries_sublist|].
  intros its' Hsame. apply read_entries_of_values. by rewrite Hsame.
Qed.


Lemma read_shortcuts_records (files : gmap (list string) Node)
    (shortcuts_path : list string) (out : list ShortcutEntry) (r : ShortcutEntry) :
  read_shortcuts files shortcuts_path = Ret out ->
  r ∈ out ->
  canonical_id (appid r) /\ is_dict (raw r).
Proof.
  unfold read_shortcuts. destruct (path_exists files shortcuts_path); simpl.
  2: { intros [= <-] Hr. by apply elem_of_nil in Hr. }
  destruct (read_file files shortcuts_path); simpl; [|done].
  destruct (vdf_binary_load a) as [data|]; simpl; [|done].
  unfold read_parsed.
  destruct (shortcuts_of data) as [sc|]; simpl; [|done].
  destruct (py_items sc) as [its|]; simpl; [|done].
  intros Hread Hr.
  destruct (read_entries_sound _ _ _ Hread r Hr) as [Hnil|Hsome].
  { by apply elem_of_nil in Hnil. }
  destruct (read_entry_raw _ _ Hsome) as [Hraw Hcanon].
  split; [done|].
  destruct (raw r) as [| | | | |d]; try done. by exists d.
Qed.

(** Where a record of the result comes from. *)
Lemma read_shortcuts_provenance (files : gmap (list string) Node)
    (shortcuts_path : list string) (out : list ShortcutEntry) (r : ShortcutEntry) :
  read_shortcuts files shortcuts_path = Ret out ->
  r ∈ out ->
  exists content data registry d,
    files !! shortcuts_path = Some (File content)
    /\ vdf_binary_load content = Ret data
    /\ shortcuts_of data = Ret (VDict registry)
    /\ VDict d ∈ registry.*2
    /\ entry_of d = Some r.
Proof.
  unfold read_shortcuts, path_exists, read_file.
  destruct (files !! shortcuts_path) as [[content|]|] eqn:Hfile; simpl.
  3: { intros [= <-] Hr. by apply elem_of_nil in Hr. }
  2: done.
  destruct (vdf_binary_load content) as [data|] eqn:Hload; simpl; [|done].
  unfold read_parsed.
  destruct (shortcuts_of data) as [sc|] eqn:Hsc; simpl; [|done].
  destruct sc as [| | | | |registry]; try done. simpl.
  intros (ds & Hvalues & ->)%read_entries_values Hr. simpl in Hr.
  apply list_elem_of_omap in Hr as (d & Hd & Hr).
  exists content, data, registry, d.
  split; [done|]. split; [done|]. split; [done|]. split; [|done].
  rewrite Hvalues. apply list_elem_of_fmap. by exists d.
Qed.

(** X7.  Whatever file is read, every record returned carries a canonical
    identifier, the decimal text of an unsigned 32-bit value, and comes
    from one entry of the registry parsed from that file: its [raw] field is
    that entry, its identifier is the normalized value of the entry's
    ["appid"] lookup, its name and path are the texts of the entry's
    ["AppName"] and ["Exe"] lookups. *)
Theorem read_shortcuts_records_canonical (files : gmap (list string) Node)
    (shortcuts_path : list string) (out : list ShortcutEntry) (r : ShortcutEntry) :
  read_shortcuts files shortcuts_path = Ret out ->
  r ∈ out ->
  canonical_id (appid r) /\ is_dict (raw r)
  /\ exists content data registry d,
       files !! shortcuts_path = Some (File content)
       /\ vdf_binary_load content = Ret data
       /\ shortcuts_of data = Ret (VDict registry)
       /\ VDict d ∈ registry.*2
       /\ raw r = VDict d
       /\ normalize_appid_field (lookup_chain d "appid") = Ret (Some (appid r))
       /\ AppName r = field_text (py_or (lookup_chain d "AppName") (VBytes []))
       /\ Exe r = field_text (py_or (lookup_chain d "Exe") (VBytes [])).
Proof.
  intros Hread Hr.
  destruct (read_shortcuts_records _ _ _ _ Hread Hr) as [Hcanon Hdict].
  split; [done|]. split; [done|].
  destruct (read_shortcuts_provenance _ _ _ _ Hread Hr)
    as (content & data & registry & d & Hfile & Hload & Hsc & Hd & Hentry).
  exists content, data, registry, d.
  split; [done|]. split; [done|]. split; [done|]. split; [done|].
  unfold entry_of in Hentry.
  destruct (normalize_appid_field (lookup_chain d "appid")) as [[a|]|]; try done.
  by injection Hentry as <-.
Qed.

End RegistryMore.

(** ** The artwork fetcher *)

Lemma download_to_file_spec (url : string) (dest : list string) (w : World) :
  exists w',
    download_to_file url dest w = (Ret (fetch_ok w url dest), w')
    /\ same_but_files w w'
    /\ requests w' = requests w ++ [url]
    /\ fs w'
       = match net w url with
         | Ret r =>
             if (status_code r =? 200) && is_ret (open_for_writing dest (fs w))
             then <[dest := File (concat (chunks r))]> (fs w)
             else fs w
         | Raise _ => fs w
         end.
Proof.
  unfold download_to_file, fetch_ok, io_bind at 1, io_try at 1, io_bind at 1,
    requests_get, same_but_files.
  destruct (net w url) as [r|e] eqn:Hnet; simpl.
  2: { by eexists. }
  destruct (status_code r =? 200); simpl.
  2: { by eexists. }
  unfold io_try, io_bind at 1, io_fs. simpl.
  destruct (open_for_writing dest (fs w)) as [f|e] eqn:Hopen; simpl.
  2: { by eexists. }
  apply open_for_writing_lookup in Hopen as Hf.
  set (w1 := set_fs f (log_request url w)).
  assert (fs w1 !! dest = Some (File [])) as Hp1.
  { simpl. subst f. by rewrite lookup_insert_eq. }
  destruct (write_chunks_spec dest (chunks r) (broken r) w1 [] Hp1)
    as (w2 & Hrun & Hfs & Hnet2 & Hreq & Hst & Hdl).
  unfold io_bind. rewrite Hrun.
  assert (fs w2 = <[dest := File (concat (chunks r))]> (fs w)) as Hfs2.
  { rewrite Hfs. simpl. subst f. by rewrite insert_insert_eq. }
  destruct (broken r); exists w2; by rewrite Hnet2, Hreq, Hst, Hdl, Hfs2.
Qed.

(** X8.  A transfer that breaks part-way leaves a file under the final
    name: the destination, emptied when it was opened, holds the chunks
    received before the break, and the answer is [False]. *)
Theorem broken_transfer_leaves_partial_file (url : string) (dest : list string)
    (w : World) (r : Response) (e : exn) :
  net w url = Ret r -> status_code r = 200 -> broken r = Some e ->
  returns (open_for_writing dest (fs w)) ->
  exists w',
    download_to_file url dest w = (Ret false, w')
    /\ fs w' = <[dest := File (concat (chunks r))]> (fs w).
Proof.
  intros Hnet Hstatus Hbroken [f Hopen].
  destruct (download_to_file_spec url dest w) as (w' & Hrun & _ & _ & Hfs).
  unfold fetch_ok in Hrun. rewrite Hnet, Hstatus, Hopen, Hbroken in *.
  by exists w'.
Qed.

(** X9.  A download changes no file but its destination, and nothing of
    the window. *)
Theorem download_to_file_frame (url : string) (dest p : list string) (w : World) :
  p <> dest ->
  exists ok w',
    download_to_file url dest w = (Ret ok, w')
    /\ fs w' !! p = fs w !! p
    /\ same_but_files w w'.
Proof.
  intros Hp.
  destruct (download_to_file_spec url dest w) as (w' & Hrun & Hsame & _ & Hfs).
  eexists _, w'. split; [done|]. split; [|done]. rewrite Hfs.
  destruct (net w url) as [r|]; [|done].
  destruct (_ && _); [|done]. by rewrite lookup_insert_ne.
Qed.

(** ** The side-file writer *)

Lemma append_cons (c : ascii) (r t : string) :
  String c r +:+ t = String c (r +:+ t).
Proof. reflexivity. Qed.

Lemma append_length (s t : string) :
  String.length (s +:+ t) = (String.length s + String.length t)%nat.
Proof.
  induction s as [|c r IH]; [done|]. rewrite append_cons. simpl. by rewrite IH.
Qed.

Lemma append_inj_r (s1 s2 t : string) : s1 +:+ t = s2 +:+ t -> s1 = s2.
Proof.
  revert s2. induction s1 as [|c r IH]; intros [|c' r'] H.
  - done.
  - apply (f_equal String.length) in H.
    rewrite !append_length in H. simpl in H. lia.
  - apply (f_equal String.length) in H.
    rewrite !append_length in H. simpl in H. lia.
  - rewrite !append_cons in H. injection H as -> H. f_equal. by apply IH.
Qed.

Lemma parent_join (dir : list string) (name : string) :
  parent (path_join dir name) = dir.
Proof. apply removelast_last. Qed.

Lemma path_join_ne_dir (dir : list string) (name : string) :
  path_join dir name <> dir.
Proof.
  unfold path_join. intros H. apply (f_equal length) in H.
  rewrite length_app in H. simpl in H. lia.
Qed.

Lemma open_for_writing_writable (p : list string) (f : gmap (list string) Node) :
  (writable f p = true -> open_for_writing p f = Ret (<[p := File []]> f))
  /\ (writable f p = false -> is_ret (open_for_writing p f) = false).
Proof.
  unfold writable, open_for_writing, is_dir.
  destruct (f !! p) as [[|]|]; destruct (f !! parent p) as [[|]|]; done.
Qed.

Lemma is_ret_open_for_writing (p : list string) (f : gmap (list string) Node) :
  is_ret (open_for_writing p f) = writable f p.
Proof.
  destruct (writable f p) eqn:H.
  - by rewrite (proj1 (open_for_writing_writable p f) H).
  - by apply open_for_writing_writable.
Qed.

Lemma writable_parent_ne (p : list string) (f : gmap (list string) Node) :
  writable f p = true -> parent p <> p.
Proof.
  unfold writable. intros [H1 H2]%andb_true_iff Heq. rewrite Heq in H2.
  by rewrite H2 in H1.
Qed.

Lemma copy2_spec (src dst : list string) (f : gmap (list string) Node) :
  let t := copy_target f src dst in
  match f !! src with
  | Some (File content) =>
      if bool_decide (src <> t) && writable f t
      then copy2 src dst f = Ret (<[t := File content]> f)
      else is_ret (copy2 src dst f) = false
  | _ => is_ret (copy2 src dst f) = false
  end.
Proof.
  intros t. unfold copy2, read_file, path_exists. fold (copy_target f src dst).
  fold t. destruct (f !! src) as [[content|]|] eqn:Hsrc; simpl.
  - destruct (decide (src = t)) as [Heq|Heq].
    + rewrite (bool_decide_eq_true_2 (src = t)) by done.
      rewrite (bool_decide_eq_false_2 (src <> t)) by (intros H; by apply H).
      done.
    + rewrite (bool_decide_eq_false_2 (src = t)) by done.
      rewrite (bool_decide_eq_true_2 (src <> t)) by done. simpl.
      destruct (writable f t) eqn:Hw.
      * rewrite (proj1 (open_for_writing_writable t f) Hw). simpl.
        by rewrite insert_insert_eq.
      * apply open_for_writing_writable in Hw.
        by destruct (open_for_writing t f).
  - by destruct (bool_decide (src = t)).
  - by destruct (bool_decide (src = t)).
Qed.

Lemma copy2_again (src dst : list string) (f f' : gmap (list string) Node) :
  copy2 src dst f = Ret f' -> copy2 src dst f' = Ret f'.
Proof.
  intros Hcopy. pose proof (copy2_spec src dst f) as Hspec. simpl in Hspec.
  set (t := copy_target f src dst) in *.
  destruct (f !! src) as [[content|]|] eqn:Hsrc;
    try (rewrite Hcopy in Hspec; done).
  destruct (bool_decide (src <> t) && writable f t) eqn:Hok;
    [|rewrite Hcopy in Hspec; done].
  apply andb_true_iff in Hok as [Hne%bool_decide_eq_true_1 Hw].
  assert (f' = <[t := File content]> f) as -> by congruence.
  pose proof (writable_parent_ne _ _ Hw) as Hparent.
  assert (copy_target (<[t := File content]> f) src dst = t) as Ht.
  { unfold copy_target, is_dir. destruct (decide (dst = t)) as [Hdt|Hdt].
    - rewrite Hdt, lookup_insert_eq. done.
    - rewrite lookup_insert_ne by done. fold (is_dir f dst).
      unfold t, copy_target in *. by destruct (is_dir f dst). }
  pose proof (copy2_spec src dst (<[t := File content]> f)) as Hspec2.
  simpl in Hspec2. rewrite Ht, lookup_insert_ne, Hsrc in Hspec2 by done.
  assert (writable (<[t := File content]> f) t = true) as Hw2.
  { unfold writable, is_dir in *. rewrite lookup_insert_eq.
    rewrite lookup_insert_ne by done. by apply andb_true_iff in Hw as [_ ->]. }
  rewrite Hw2, bool_decide_eq_true_2 in Hspec2 by done. simpl in Hspec2.
  by rewrite Hspec2, insert_insert_eq.
Qed.

Section SidecarMore.
Context {RT : Runtime}.

Lemma sidecar_spec (grid_dir : list string) (source_appid target_appid : string)
    (w : World) :
  let src := path_join grid_dir (source_appid +:+ ".json") in
  let dst := path_join grid_dir (target_appid +:+ ".json") in
  exists status w',
    copy_or_write_json_for_target grid_dir source_appid target_appid w
    = (Ret status, w')
    /\ same_but_files w w' /\ requests w' = requests w
    /\ (status, fs w')
       = if path_exists (fs w) src then
           match copy2 src dst (fs w) with
           | Ret f => ("JSON copied", f)
           | Raise _ => ("JSON failed", fs w)
           end
         else if writable (fs w) dst
              then ("JSON written (default)", <[dst := File default_json_bytes]> (fs w))
              else ("JSON failed", fs w).
Proof.
  intros src dst. unfold copy_or_write_json_for_target. fold src dst.
  unfold io_try, same_but_files.
  destruct (path_exists (fs w) src).
  - unfold io_bind, io_fs. destruct (copy2 src dst (fs w)); simpl; by eexists _, _.
  - unfold io_bind at 1, io_fs.
    destruct (writable (fs w) dst) eqn:Hw.
    + rewrite (proj1 (open_for_writing_writable dst (fs w)) Hw). simpl.
      eexists _, _. repeat split. simpl. f_equal.
      apply map_eq. intros q. destruct (decide (dst = q)) as [<-|Hne].
      * by rewrite lookup_alter_eq, !lookup_insert_eq.
      * by rewrite lookup_alter_ne, !lookup_insert_ne.
    + apply open_for_writing_writable in Hw.
      destruct (open_for_writing dst (fs w)); [done|]. simpl. by eexists _, _.
Qed.

(** X10.  Writing the side file twice in a row is the same as writing it
    once: the second call leaves every file as the first one left it.  It
    also gives the same answer, provided the two identifiers differ (with
    equal identifiers and no side file yet, the first call writes the
    default document and the second finds source and target to be the same
    file and fails). *)
Theorem copy_or_write_json_twice (grid_dir : list string)
    (source_appid target_appid : string) (w : World) :
  exists status1 w1 status2 w2,
    copy_or_write_json_for_target grid_dir source_appid target_appid w
    = (Ret status1, w1)
    /\ copy_or_write_json_for_target grid_dir source_appid target_appid w1
       = (Ret status2, w2)
    /\ fs w2 = fs w1
    /\ (source_appid <> target_appid -> status2 = status1).
Proof.
  destruct (sidecar_spec grid_dir source_appid target_appid w)
    as (status1 & w1 & Hrun1 & _ & _ & H1).
  destruct (sidecar_spec grid_dir source_appid target_appid w1)
    as (status2 & w2 & Hrun2 & _ & _ & H2).
  exists status1, w1, status2, w2. split; [done|]. split; [done|].
  simpl in H1, H2.
  set (src := path_join grid_dir (source_appid +:+ ".json")) in *.
  set (dst := path_join grid_dir (target_appid +:+ ".json")) in *.
  assert (source_appid <> target_appid -> src <> dst) as Hdiff.
  { intros Hne Heq. apply Hne. unfold src, dst, path_join in Heq.
    apply app_inj_tail in Heq as [_ Heq]. by apply append_inj_r in Heq. }
  destruct (path_exists (fs w) src) eqn:Hsrc.
  - destruct (copy2 src dst (fs w)) as [f|e] eqn:Hcopy.
    + injection H1 as -> Hfs1. rewrite Hfs1 in H2.
      assert (path_exists f src = true) as Hsrc'.
      { pose proof (copy2_spec src dst (fs w)) as Hspec. simpl in Hspec.
        unfold path_exists in *.
        destruct (fs w !! src) as [[content|]|] eqn:Hl;
          try (rewrite Hcopy in Hspec; done).
        destruct (bool_decide _ && _) eqn:Hok; [|rewrite Hcopy in Hspec; done].
        apply andb_true_iff in Hok as [Hne%bool_decide_eq_true_1 _].
        assert (f = <[copy_target (fs w) src dst := File content]> (fs w)) as ->
          by congruence.
        by rewrite lookup_insert_ne, Hl. }
      rewrite Hsrc', (copy2_again _ _ _ _ Hcopy) in H2.
      injection H2 as -> ->. done.
    + injection H1 as -> Hfs1. rewrite Hfs1, Hsrc, Hcopy in H2.
      injection H2 as -> ->. done.
  - destruct (writable (fs w) dst) eqn:Hw.
    + injection H1 as -> Hfs1. rewrite Hfs1 in H2.
      pose proof (writable_parent_ne _ _ Hw) as Hparent.
      assert (writable (<[dst := File default_json_bytes]> (fs w)) dst = true) as Hw'.
      { unfold writable, is_dir in *. rewrite lookup_insert_eq.
        rewrite lookup_insert_ne by done. by apply andb_true_iff in Hw as [_ ->]. }
      destruct (decide (src = dst)) as [Heq|Hne].
      * split.
        -- unfold path_exists in H2. rewrite Heq, lookup_insert_eq in H2.
           destruct (copy2 dst dst _) as [f|e] eqn:Hcopy.
           ++ exfalso. pose proof (copy2_spec dst dst
                (<[dst := File default_json_bytes]> (fs w))) as Hspec.
              simpl in Hspec. rewrite lookup_insert_eq in Hspec.
              assert (copy_target (<[dst := File default_json_bytes]> (fs w)) dst dst
                      = dst) as Ht.
              { unfold copy_target, is_dir. by rewrite lookup_insert_eq. }
              rewrite Ht, bool_decide_eq_false_2 in Hspec by (intros H; done).
              simpl in Hspec. by rewrite Hcopy in Hspec.
           ++ by injection H2 as _ ->.
        -- intros Hne. by destruct (Hdiff Hne).
      * unfold path_exists in H2, Hsrc. rewrite lookup_insert_ne in H2 by done.
        destruct (fs w !! src); [done|]. rewrite Hw' in H2.
        injection H2 as -> ->. by rewrite insert_insert_eq.
    + injection H1 as -> Hfs1. rewrite Hfs1, Hsrc, Hw in H2.
      injection H2 as -> ->. done.
Qed.

(** X11.  The side-file writer changes no file but the target side file
    or, when that is a directory, the file of the source's name inside it.
    In particular it never alters another shortcut's files. *)
Theorem copy_or_write_json_frame (grid_dir : list string)
    (source_appid target_appid : string) (w : World) (p : list string) :
  let dst := path_join grid_dir (target_appid +:+ ".json") in
  p <> dst -> p <> path_join dst (source_appid +:+ ".json") ->
  exists status w',
    copy_or_write_json_for_target grid_dir source_appid target_appid w
    = (Ret status, w')
    /\ fs w' !! p = fs w !! p
    /\ same_but_files w w'.
Proof.
  intros dst Hp1 Hp2.
  destruct (sidecar_spec grid_dir source_appid target_appid w)
    as (status & w' & Hrun & Hsame & _ & H).
  exists status, w'. split; [done|]. split; [|done]. simpl in H. fold dst in H.
  set (src := path_join grid_dir (source_appid +:+ ".json")) in *.
  destruct (path_exists (fs w) src).
  - pose proof (copy2_spec src dst (fs w)) as Hspec. simpl in Hspec.
    destruct (copy2 src dst (fs w)) as [f|e] eqn:Hcopy;
      [|by injection H as _ ->].
    injection H as _ ->.
    destruct (fs w !! src) as [[content|]|]; try done.
    destruct (bool_decide _ && _); [|done]. injection Hspec as ->.
    rewrite lookup_insert_ne; [done|].
    unfold copy_target. destruct (is_dir (fs w) dst); [|done].
    unfold src, path_join at 2. by rewrite last_snoc.
  - destruct (writable (fs w) dst); injection H as _ ->; [|done].
    by rewrite lookup_insert_ne.
Qed.
End SidecarMore.

(** ** The artwork directory *)

Lemma os_mkdir_ret (p : list string) (f f' : gmap (list string) Node) :
  os_mkdir p f = Ret f' ->
  f !! p = None /\ f !! parent p = Some Dir /\ f' = <[p := Dir]> f.
Proof.
  unfold os_mkdir. destruct (f !! p); [done|].
  destruct (f !! parent p) as [[|]|]; try done. by intros [= <-].
Qed.

Lemma parent_reverse_cons (x : string) (rp : list string) :
  parent (reverse (x :: rp)) = reverse rp.
Proof. rewrite reverse_cons. apply removelast_last. Qed.

(** What a successful [mkdir(parents=True, exist_ok=True)] leaves: the
    directory, every node that was there, and new nodes only where the path
    or one of its ancestors was missing, each a directory. *)
Lemma mkdir_parents_rev_spec (rp : list string) (f f' : gmap (list string) Node) :
  mkdir_parents_rev rp f = Ret f' ->
  f' !! reverse rp = Some Dir
  /\ f ⊆ f'
  /\ forall q, f !! q = None -> is_Some (f' !! q) ->
       f' !! q = Some Dir /\ ancestor_or_self q (reverse rp).
Proof.
  revert f'. induction rp as [|x rp IH]; intros f'.
  - simpl. change (reverse []) with (@nil string).
    destruct (os_mkdir [] f) as [f1|e] eqn:Hmk.
    + intros [= <-]. apply os_mkdir_ret in Hmk as (Hnone & _ & ->).
      split; [apply lookup_insert_eq|]. split; [by apply insert_subseteq|].
      intros q Hq [n Hn]. destruct (decide (q = [])) as [->|Hne].
      * by rewrite lookup_insert_eq.
      * rewrite lookup_insert_ne in Hn by done. congruence.
    + destruct e; try done; unfold is_dir;
        destruct (f !! []) as [[|]|] eqn:Hroot; try done; intros [= <-];
        (split; [done|]); (split; [done|]); intros q Hq [n Hn]; congruence.
  - cbn [mkdir_parents_rev]. set (p := reverse (x :: rp)).
    destruct (os_mkdir p f) as [f1|e] eqn:Hmk.
    + intros [= <-]. apply os_mkdir_ret in Hmk as (Hnone & _ & ->).
      split; [apply lookup_insert_eq|]. split; [by apply insert_subseteq|].
      intros q Hq [n Hn]. destruct (decide (q = p)) as [->|Hne].
      * by rewrite lookup_insert_eq.
      * rewrite lookup_insert_ne in Hn by done. congruence.
    + assert (forall g, (if is_dir f p then Ret f else Raise e) = Ret g ->
                g !! p = Some Dir /\ f ⊆ g
                /\ forall q, f !! q = None -> is_Some (g !! q) ->
                     g !! q = Some Dir /\ ancestor_or_self q p) as Hexists.
      { intros g. unfold is_dir. destruct (f !! p) as [[|]|] eqn:Hp; try done.
        intros [= <-]. split; [done|]. split; [done|].
        intros q Hq [n Hn]. congruence. }
      destruct e; try apply Hexists.
      destruct (mkdir_parents_rev rp f) as [f1|] eqn:Hrec; simpl; [|done].
      destruct (IH f1 eq_refl) as (Hparent & Hsub & Hnew).
      unfold mkdir_exist_ok.
      destruct (os_mkdir p f1) as [f2|e2] eqn:Hmk2.
      * intros [= <-]. apply os_mkdir_ret in Hmk2 as (Hnone & _ & ->).
        split; [apply lookup_insert_eq|].
        split; [etrans; [done|]; by apply insert_subseteq|].
        intros q Hq [n Hn]. destruct (decide (q = p)) as [->|Hne].
        -- by rewrite lookup_insert_eq.
        -- rewrite lookup_insert_ne in Hn |- * by done.
           destruct (Hnew q Hq (ex_intro _ n Hn)) as [Hd Hpre].
           split; [done|]. unfold ancestor_or_self, p in *.
           rewrite reverse_cons. by apply prefix_app_r.
      * destruct e2; try done; unfold is_dir;
          destruct (f1 !! p) as [[|]|] eqn:Hp; try done; intros [= <-];
          (split; [done|]); (split; [done|]);
          intros q Hq Hn; destruct (Hnew q Hq Hn) as [Hd Hpre];
          (split; [done|]); unfold ancestor_or_self, p in *;
          rewrite reverse_cons; by apply prefix_app_r.
Qed.

Lemma ensure_grid_dir_spec (userdata_path : list string)
    (w w' : World) (gp : list string) :
  ensure_grid_dir userdata_path w = (Ret gp, w') ->
  gp = grid_path userdata_path
  /\ fs w' !! gp = Some Dir
  /\ fs w ⊆ fs w'
  /\ (forall q, fs w !! q = None -> is_Some (fs w' !! q) ->
        fs w' !! q = Some Dir /\ ancestor_or_self q gp)
  /\ same_but_files w w' /\ requests w' = requests w.
Proof.
  unfold ensure_grid_dir, io_bind, io_fs, mkdir_parents.
  destruct (mkdir_parents_rev (reverse (grid_path userdata_path)) (fs w))
    as [f|e] eqn:Hmk; simpl; [|done].
  intros [= <- <-]. apply mkdir_parents_rev_spec in Hmk.
  rewrite reverse_involutive in Hmk. destruct Hmk as (Hdir & Hsub & Hnew).
  simpl. split; [done|]. split; [done|]. split; [done|]. split; [done|].
  by split.
Qed.

(** X12.  When [ensure_grid_dir] returns, the artwork directory
    [<userdata>/config/grid] is a directory; every file and directory that
    existed is as it was; what is new is a directory, on the way from the
    root to the artwork directory.  Nothing else of the world changes. *)
Theorem ensure_grid_dir_creates_only_directories (userdata_path : list string)
    (w w' : World) (gp : list string) :
  ensure_grid_dir userdata_path w = (Ret gp, w') ->
  gp = grid_path userdata_path
  /\ fs w' !! gp = Some Dir
  /\ fs w ⊆ fs w'
  /\ (forall q, fs w !! q = None -> is_Some (fs w' !! q) ->
        fs w' !! q = Some Dir /\ ancestor_or_self q gp)
  /\ same_but_files w w' /\ requests w' = requests w.
Proof. apply ensure_grid_dir_spec. Qed.

Lemma ensure_grid_dir_lemma (userdata_path : list string)
    (w w' : World) (gp : list string) :
  ensure_grid_dir userdata_path w = (Ret gp, w') ->
  gp = grid_path userdata_path /\ fs w' !! gp = Some Dir.
Proof.
  unfold ensure_grid_dir, io_bind, io_fs, mkdir_parents.
  destruct (mkdir_parents_rev (reverse (grid_path userdata_path)) (fs w))
    as [f|e] eqn:Hmk; simpl; [|done].
  intros [= <- <-]. apply mkdir_parents_rev_spec in Hmk.
  rewrite reverse_involutive in Hmk. by destruct Hmk as (Hdir & _).
Qed.

(** X13.  Ensuring the artwork directory a second time changes nothing and
    succeeds: the call is idempotent. *)
Theorem ensure_grid_dir_twice (userdata_path : list string)
    (w w' : World) (gp : list string) :
  ensure_grid_dir userdata_path w = (Ret gp, w') ->
  ensure_grid_dir userdata_path w' = (Ret gp, w').
Proof.
  intros Hrun.
  destruct (ensure_grid_dir_lemma userdata_path w w' gp Hrun) as (-> & Hdir).
  unfold ensure_grid_dir, io_bind, io_fs, mkdir_parents.
  destruct (reverse (grid_path userdata_path)) as [|x rp] eqn:Hrev.
  { apply (f_equal reverse) in Hrev. rewrite reverse_involutive in Hrev.
    unfold grid_path, path_join in Hrev. by destruct userdata_path. }
  cbn [mkdir_parents_rev]. rewrite <- Hrev, reverse_involutive.
  unfold os_mkdir, is_dir. rewrite Hdir. simpl. by destruct w'.
Qed.

Lemma ensure_grid_dir_cases (userdata_path : list string) (w : World) :
  let config := path_join userdata_path "config" in
  let grid := grid_path userdata_path in
  fs w !! userdata_path = Some Dir ->
  ensure_grid_dir userdata_path w
  = match fs w !! grid, fs w !! config with
    | Some Dir, _ => (Ret grid, w)
    | Some (File _), _ => (Raise (OSError 17), w)
    | None, Some Dir => (Ret grid, set_fs (<[grid := Dir]> (fs w)) w)
    | None, Some (File _) => (Raise NotADirectoryError, w)
    | None, None =>
        (Ret grid, set_fs (<[grid := Dir]> (<[config := Dir]> (fs w))) w)
    end.
Proof.
  intros config grid Hu.
  assert (parent grid = config) as Hpg by apply parent_join.
  assert (parent config = userdata_path) as Hpc by apply parent_join.
  assert (grid <> config) as Hne by apply path_join_ne_dir.
  unfold ensure_grid_dir, io_bind, io_fs, mkdir_parents. fold grid.
  assert (reverse grid = "grid" :: "config" :: reverse userdata_path) as ->.
  { unfold grid, grid_path, path_join. by rewrite !reverse_app. }
  assert (reverse ("grid" :: "config" :: reverse userdata_path) = grid) as Hg.
  { unfold grid, grid_path, path_join.
    by rewrite !reverse_cons, reverse_involutive. }
  assert (reverse ("config" :: reverse userdata_path) = config) as Hc.
  { unfold config, path_join. by rewrite reverse_cons, reverse_involutive. }
  cbn [mkdir_parents_rev]. rewrite Hg, Hc.
  unfold mkdir_exist_ok, os_mkdir, is_dir. rewrite Hpg, Hpc, Hu.
  destruct (fs w !! grid) as [[|]|] eqn:Hgrid; simpl.
  - done.
  - by destruct w.
  - destruct (fs w !! config) as [[|]|] eqn:Hconfig; simpl.
    + done.
    + done.
    + rewrite lookup_insert_ne, Hgrid, lookup_insert_eq by done. done.
Qed.

(** X14.  With the userdata directory in place, [ensure_grid_dir] fails in
    two cases only: [grid] exists and is a file ([FileExistsError], errno
    17), or [grid] is missing and [config] is a file
    ([NotADirectoryError]).  Otherwise it returns, having created [grid]
    and, when missing, [config]; a failed call changes nothing. *)
Theorem ensure_grid_dir_outcomes (userdata_path : list string) (w : World) :
  let config := path_join userdata_path "config" in
  let grid := grid_path userdata_path in
  fs w !! userdata_path = Some Dir ->
  ensure_grid_dir userdata_path w
  = match fs w !! grid, fs w !! config with
    | Some Dir, _ => (Ret grid, w)
    | Some (File _), _ => (Raise (OSError 17), w)
    | None, Some Dir => (Ret grid, set_fs (<[grid := Dir]> (fs w)) w)
    | None, Some (File _) => (Raise NotADirectoryError, w)
    | None, None =>
        (Ret grid, set_fs (<[grid := Dir]> (<[config := Dir]> (fs w))) w)
    end.
Proof. apply ensure_grid_dir_cases. Qed.

(** ** The apply action *)

Lemma io_bind_run {A B} (m : IO A) (k : A -> IO B) (w w1 : World) (a : A) :
  m w = (Ret a, w1) -> io_bind m k w = k a w1.
Proof. intros H. unfold io_bind. by rewrite H. Qed.

Lemma agree_off_refl (w : World) : agree_off [] w w.
Proof. by repeat split. Qed.

Lemma agree_off_trans (ps1 ps2 : list (list string)) (w w1 w2 : World) :
  agree_off ps1 w w1 -> agree_off ps2 w1 w2 -> agree_off (ps1 ++ ps2) w w2.
Proof.
  intros (Hn1 & Hd1 & Hf1) (Hn2 & Hd2 & Hf2).
  split; [congruence|]. split; [congruence|].
  intros p Hp. rewrite elem_of_app in Hp.
  rewrite Hf2, Hf1; [done|..]; intros H; apply Hp; auto.
Qed.

Lemma fetch_ok_agree (ps : list (list string)) (w w' : World) (url : string)
    (dest : list string) :
  agree_off ps w w' -> dest ∉ ps -> parent dest ∉ ps ->
  fetch_ok w' url dest = fetch_ok w url dest.
Proof.
  intros (Hnet & _ & Hfs) Hd Hp. unfold fetch_ok.
  rewrite Hnet, !is_ret_open_for_writing. unfold writable, is_dir.
  by rewrite (Hfs _ Hd), (Hfs _ Hp).
Qed.

Lemma download_step (url : string) (dest : list string) (w : World) :
  exists w',
    download_to_file url dest w = (Ret (fetch_ok w url dest), w')
    /\ agree_off [dest] w w' /\ status_text w' = status_text w.
Proof.
  destruct (download_to_file_spec url dest w)
    as (w' & Hrun & (Hnet & Hst & Hdl) & _ & Hfs).
  exists w'. split; [done|]. split; [|done]. split; [done|]. split; [done|].
  intros p Hp. rewrite Hfs. rewrite list_elem_of_singleton in Hp.
  destruct (net w url) as [r|]; [|done].
  destruct (_ && _); [|done]. by rewrite lookup_insert_ne.
Qed.

Lemma path_join_inj (dir : list string) (a b : string) :
  path_join dir a = path_join dir b -> a = b.
Proof. unfold path_join. by intros [_ H]%app_inj_tail. Qed.

Section ApplyMore.
Context {RT : Runtime}.

Lemma sidecar_step (grid_dir : list string) (source_appid target_appid : string)
    (w : World) :
  let dst := path_join grid_dir (target_appid +:+ ".json") in
  exists status w',
    copy_or_write_json_for_target grid_dir source_appid target_appid w
    = (Ret status, w')
    /\ agree_off [dst; path_join dst (source_appid +:+ ".json")] w w'
    /\ status_text w' = status_text w
    /\ status ∈ ["JSON copied"; "JSON written (default)"; "JSON failed"].
Proof.
  intros dst.
  destruct (sidecar_spec grid_dir source_appid target_appid w)
    as (status & w' & Hrun & (Hnet & Hst & Hdl) & _ & H).
  exists status, w'. split; [done|]. simpl in H. fold dst in H.
  set (src := path_join grid_dir (source_appid +:+ ".json")) in *.
  assert (status ∈ ["JSON copied"; "JSON written (default)"; "JSON failed"]
          /\ forall p, p ∉ [dst; path_join dst (source_appid +:+ ".json")] ->
               fs w' !! p = fs w !! p) as [Hin Hfs]; [|done].
  destruct (path_exists (fs w) src).
  - pose proof (copy2_spec src dst (fs w)) as Hspec. simpl in Hspec.
    destruct (copy2 src dst (fs w)) as [f|e] eqn:Hcopy.
    + injection H as -> ->. split; [set_solver|]. intros p Hp.
      destruct (fs w !! src) as [[content|]|]; try done.
      destruct (bool_decide _ && _); [|done]. injection Hspec as ->.
      rewrite lookup_insert_ne; [done|]. intros <-. apply Hp.
      unfold copy_target. destruct (is_dir (fs w) dst); [|set_solver].
      unfold src, path_join at 2. rewrite last_snoc. set_solver.
    + injection H as -> ->. split; [set_solver|done].
  - destruct (writable (fs w) dst); injection H as -> ->.
    + split; [set_solver|]. intros p Hp. rewrite lookup_insert_ne; [done|].
      set_solver.
    + split; [set_solver|done].
Qed.

(** Destinations of the apply action are distinct children of the artwork
    directory. *)
Ltac fresh_path :=
  rewrite ?parent_join;
  repeat first
    [ apply not_elem_of_nil
    | apply not_elem_of_cons; split
    | apply not_elem_of_app; split ];
  try (intros Heq%path_join_inj; apply String.app_inj in Heq; discriminate Heq);
  try (intros Heq; apply (f_equal length) in Heq; unfold path_join in Heq;
       rewrite ?length_app in Heq; simpl in Heq; lia).

Lemma on_apply_accepted (self : Window) (w : World) (e : ShortcutEntry) :
  0 <= win_current_row self ->
  nth_error (win_shortcuts self) (Z.to_nat (win_current_row self)) = Some e ->
  PyStr.isdigit (PyStr.strip (win_appid_input self)) = true ->
  let source := PyStr.strip (win_appid_input self) in
  let grid := win_grid_dir self in
  exists w' json_result,
    on_apply self w = (Ret tt, w')
    /\ agree_off (apply_paths grid source (appid e)) w w'
    /\ json_result ∈ ["JSON copied"; "JSON written (default)"; "JSON failed"]
    /\ status_text w'
       = (join "  |  " (asset_marks w grid source (appid e) ++ [json_result])
          +:+ String "010" "Saved to: " +:+ path_text grid)
         +:+ String "010"
               "Tip: Quit & relaunch Steam to pick up artwork (or clear Steam cache).".
Proof.
  intros Hrow He Hdigit source grid.
  set (w0 := set_status ("Downloading artwork for AppID " +:+ source
                         +:+ " → applying to non-Steam ID " +:+ appid e
                         +:+ " ...") w).
  assert (agree_off [] w w0) as H0 by (by repeat split).
  destruct (download_step (cdn_url source "library_600x900_2x.jpg")
              (path_join grid (appid e +:+ "p.jpg")) w0) as (w1 & Hrun1 & H1 & _).
  destruct (download_step (cdn_url source "library_411x184.jpg")
              (path_join grid (appid e +:+ ".jpg")) w1) as (w2 & Hrun2 & H2 & _).
  destruct (download_step (cdn_url source "library_hero.jpg")
              (path_join grid (appid e +:+ "_hero.jpg")) w2) as (w3 & Hrun3 & H3 & _).
  destruct (download_step (cdn_url source "logo.png")
              (path_join grid (appid e +:+ "_logo.png")) w3) as (w4 & Hrun4 & H4 & _).
  destruct (sidecar_step grid source (appid e) w4)
    as (json_result & w5 & Hrun5 & H5 & _ & Hjson).
  pose proof (agree_off_trans _ _ _ _ _ H0 H1) as H01.
  pose proof (agree_off_trans _ _ _ _ _ H01 H2) as H02.
  pose proof (agree_off_trans _ _ _ _ _ H02 H3) as H03.
  pose proof (agree_off_trans _ _ _ _ _ H03 H4) as H04.
  pose proof (agree_off_trans _ _ _ _ _ H04 H5) as H05.
  eexists _, json_result. split; [|split; [|split; [done|]]].
  - unfold on_apply.
    destruct (Z.ltb_spec (win_current_row self) 0) as [|_]; [lia|].
    rewrite Hdigit. change (negb true) with false. cbv iota. fold source grid.
    unfold shortcut_at. rewrite He. cbv beta zeta iota.
    erewrite io_bind_run by reflexivity.
    erewrite io_bind_run by reflexivity. fold w0.
    erewrite io_bind_run by exact Hrun1.
    erewrite io_bind_run by exact Hrun2.
    erewrite io_bind_run by exact Hrun3.
    erewrite io_bind_run by exact Hrun4.
    erewrite io_bind_run by exact Hrun5.
    erewrite io_bind_run by reflexivity.
    erewrite io_bind_run by reflexivity.
    reflexivity.
  - destruct H05 as (Hn & Hd & Hf). split; [done|]. split; [done|].
    intros p Hp. simpl. apply Hf. exact Hp.
  - simpl. unfold asset_marks.
    rewrite (fetch_ok_agree [] w w0); [|done|fresh_path|fresh_path].
    rewrite (fetch_ok_agree _ w w1 _ _ H01); [|fresh_path|fresh_path].
    rewrite (fetch_ok_agree _ w w2 _ _ H02); [|fresh_path|fresh_path].
    rewrite (fetch_ok_agree _ w w3 _ _ H03); [|fresh_path|fresh_path].
    reflexivity.
Qed.
End ApplyMore.

Section ApplyOutcomes.
Context {RT : Runtime}.

(** X15.  After an accepted apply action the status label shows one mark
    for each artwork file, and each mark is the answer its own download
    would give in the world before the action: a failed asset neither stops
    nor changes the others.  The line ends with the answer of the side-file
    writer, the artwork directory and the tip. *)
Theorem on_apply_marks_are_independent (self : Window) (w : World)
    (e : ShortcutEntry) :
  0 <= win_current_row self ->
  nth_error (win_shortcuts self) (Z.to_nat (win_current_row self)) = Some e ->
  PyStr.isdigit (PyStr.strip (win_appid_input self)) = true ->
  exists w' json_result,
    on_apply self w = (Ret tt, w')
    /\ json_result ∈ ["JSON copied"; "JSON written (default)"; "JSON failed"]
    /\ status_text w'
       = (join "  |  "
            (asset_marks w (win_grid_dir self) (PyStr.strip (win_appid_input self))
               (appid e) ++ [json_result])
          +:+ String "010" "Saved to: " +:+ path_text (win_grid_dir self))
         +:+ String "010"
               "Tip: Quit & relaunch Steam to pick up artwork (or clear Steam cache).".
Proof.
  intros Hrow He Hdigit.
  destruct (on_apply_accepted self w e Hrow He Hdigit)
    as (w' & json_result & Hrun & _ & Hjson & Hstatus).
  by exists w', json_result.
Qed.

(** X16.  An accepted apply action writes nowhere but at the four artwork
    files and the side file of the target (or inside that side file's path,
    when it is a directory): every other path, another shortcut's files
    among them, is as before, and no warning box is shown. *)
Theorem on_apply_touches_only_its_targets (self : Window) (w : World)
    (e : ShortcutEntry) (p : list string) :
  0 <= win_current_row self ->
  nth_error (win_shortcuts self) (Z.to_nat (win_current_row self)) = Some e ->
  PyStr.isdigit (PyStr.strip (win_appid_input self)) = true ->
  p ∉ apply_paths (win_grid_dir self) (PyStr.strip (win_appid_input self)) (appid e) ->
  exists w',
    on_apply self w = (Ret tt, w')
    /\ fs w' !! p = fs w !! p
    /\ dialogs w' = dialogs w.
Proof.
  intros Hrow He Hdigit Hp.
  destruct (on_apply_accepted self w e Hrow He Hdigit)
    as (w' & json_result & Hrun & (_ & Hd & Hf) & _).
  exists w'. split; [done|]. split; [by apply Hf | done].
Qed.

Lemma on_apply_outcome (self : Window) (w : World) :
  (exists w', on_apply self w = (Ret tt, w'))
  \/ (on_apply self w = (Raise IndexError, w)
      /\ (Z.of_nat (length (win_shortcuts self)) <= win_current_row self)
      /\ PyStr.isdigit (PyStr.strip (win_appid_input self)) = true).
Proof.
  destruct (Z.ltb_spec (win_current_row self) 0) as [Hneg|Hrow].
  { left. unfold on_apply.
    destruct (Z.ltb_spec (win_current_row self) 0); [|lia]. by eexists. }
  destruct (PyStr.isdigit (PyStr.strip (win_appid_input self))) eqn:Hdigit.
  2: { left. unfold on_apply. rewrite Hdigit.
       destruct (Z.ltb_spec (win_current_row self) 0); by eexists. }
  destruct (nth_error (win_shortcuts self) (Z.to_nat (win_current_row self)))
    as [e|] eqn:He.
  - left. destruct (on_apply_accepted self w e Hrow He Hdigit)
      as (w' & _ & Hrun & _). by exists w'.
  - right. split; [|split; [|done]].
    + unfold on_apply. destruct (Z.ltb_spec (win_current_row self) 0); [lia|].
      rewrite Hdigit. simpl. unfold shortcut_at. by rewrite He.
    + apply nth_error_None in He. lia.
Qed.

(** X17.  The apply action raises nothing but [IndexError], and that only
    when the identifier is accepted and the current row is beyond the loaded
    shortcuts; the exception then leaves before any request, file write or
    change of the status label. *)
Theorem on_apply_raises_only_index_error (self : Window) (w : World) :
  (exists w', on_apply self w = (Ret tt, w'))
  \/ (on_apply self w = (Raise IndexError, w)
      /\ (Z.of_nat (length (win_shortcuts self)) <= win_current_row self)
      /\ PyStr.isdigit (PyStr.strip (win_appid_input self)) = true).
Proof. apply on_apply_outcome. Qed.

(** X18.  An accepted apply action sends exactly four requests, for the
    cover, the wide image, the hero image and the logo of the source
    identifier, in this order, whatever the network answers and whichever
    shortcut is the target; the side file costs no request. *)
Theorem on_apply_sends_four_requests (self : Window) (w : World)
    (e : ShortcutEntry) :
  0 <= win_current_row self ->
  nth_error (win_shortcuts self) (Z.to_nat (win_current_row self)) = Some e ->
  PyStr.isdigit (PyStr.strip (win_appid_input self)) = true ->
  exists w',
    on_apply self w = (Ret tt, w')
    /\ requests w'
       = requests w
         ++ map (fun name =>
                   "https://steamcdn-a.akamaihd.net/steam/apps/"
                   +:+ PyStr.strip (win_appid_input self) +:+ "/" +:+ name)
              ["library_600x900_2x.jpg"; "library_411x184.jpg";
               "library_hero.jpg"; "logo.png"].
Proof. apply on_apply_requests. Qed.

(** ** The list of shortcuts *)

Lemma add_items_map (l : list ShortcutEntry) (shown : list string) :
  add_items l shown = shown ++ (item_text <$> l).
Proof.
  revert shown. induction l as [|e l IH]; intros shown; simpl.
  - by rewrite app_nil_r.
  - by rewrite IH, <- app_assoc.
Qed.

Lemma reload_shortcuts_spec (shortcuts_path : list string) (self : Listing)
    (w : World) :
  reload_shortcuts shortcuts_path self w
  = match read_shortcuts (fs w) shortcuts_path with
    | Raise e => (Raise e, {| shortcuts := shortcuts self; items := [] |}, w)
    | Ret loaded =>
        (Ret tt, {| shortcuts := loaded; items := item_text <$> loaded |},
         set_status ("Loaded " +:+ PyInt.to_text (Z.of_nat (length loaded))
                     +:+ " shortcuts from " +:+ path_text shortcuts_path) w)
    end.
Proof.
  unfold reload_shortcuts.
  destruct (read_shortcuts (fs w) shortcuts_path); [|done].
  by rewrite add_items_map.
Qed.

(** X19.  However [reload_shortcuts] ends, every line of the list stands for
    the shortcut at the same index.  When reading the registry raises, the
    list is left empty, the shortcuts loaded before are kept, the world is
    untouched and the exception propagates; when it returns, the list has
    one line for each record read, in order, and no file changes. *)
Theorem reload_shortcuts_lines_match (shortcuts_path : list string)
    (self : Listing) (w : World) :
  let '(result, self', w') := reload_shortcuts shortcuts_path self w in
  (forall (i : nat) (line : string),
     items self' !! i = Some line ->
     exists e, shortcuts self' !! i = Some e /\ line = item_text e)
  /\ fs w' = fs w /\ requests w' = requests w
  /\ match result with
     | Ret _ =>
         read_shortcuts (fs w) shortcuts_path = Ret (shortcuts self')
         /\ length (items self') = length (shortcuts self')
     | Raise e =>
         read_shortcuts (fs w) shortcuts_path = Raise e
         /\ items self' = [] /\ shortcuts self' = shortcuts self /\ w' = w
     end.
Proof.
  rewrite reload_shortcuts_spec.
  destruct (read_shortcuts (fs w) shortcuts_path) as [loaded|e]; simpl.
  - split; [|by rewrite length_fmap].
    intros i line Hline. rewrite list_lookup_fmap in Hline.
    destruct (loaded !! i) as [e|]; [|done]. exists e. by injection Hline as <-.
  - split; [|done]. intros i line Hline. done.
Qed.

(** X20.  After [reload_shortcuts], however it ended, the apply action on a
    row of the list (or on no row, -1) returns: it cannot raise
    [IndexError], whatever text the field holds and whatever the world has
    become since. *)
Theorem reload_then_apply_never_raises (shortcuts_path grid_dir : list string)
    (self : Listing) (w w1 : World) (row : Z) (input : string) :
  let reloaded := (reload_shortcuts shortcuts_path self w).1.2 in
  row < Z.of_nat (length (items reloaded)) ->
  exists w', on_apply (window_of reloaded grid_dir row input) w1 = (Ret tt, w').
Proof.
  rewrite reload_shortcuts_spec.
  destruct (read_shortcuts (fs w) shortcuts_path) as [loaded|e]; simpl.
  - rewrite length_fmap. intros Hrow.
    destruct (on_apply_outcome (window_of
      {| shortcuts := loaded; items := item_text <$> loaded |} grid_dir row input) w1)
      as [Hret|(_ & Hlen & _)]; [done|]. simpl in Hlen. lia.
  - intros Hrow.
    destruct (on_apply_outcome (window_of
      {| shortcuts := shortcuts self; items := [] |} grid_dir row input) w1)
      as [Hret|(Hrun & Hlen & _)]; [done|]. simpl in Hlen. lia.
Qed.
End ApplyOutcomes.

(** ** Starting the window *)

Lemma find_steam_userdata_found (home : list string)
    (files : gmap (list string) Node) (name : string) (p : list string) :
  find_steam_userdata home files = Ret (Some (name, p)) ->
  p = STEAM_USERDATA_BASE home ++ [name]
  /\ qualifies files (STEAM_USERDATA_BASE home) name
  /\ forall other, qualifies files (STEAM_USERDATA_BASE home) other ->
       String.le name other.
Proof.
  unfold find_steam_userdata, path_exists.
  set (base := STEAM_USERDATA_BASE home).
  destruct (files !! base) as [[c|]|] eqn:Hbase; simpl; [by unfold iterdir; rewrite Hbase| |done].
  destruct (iterdir_names files base Hbase) as (names & Hiter & Hnames).
  rewrite Hiter. simpl. intros [= Hfound].
  pose proof (first_account_sorted files base (sorted_names names)
                (StronglySorted_merge_sort _ _)) as Hfirst.
  rewrite Hfound in Hfirst. destruct Hfirst as (_ & Hp & Hq & Hmin).
  split; [done|]. split; [done|].
  intros other Hother. apply Hmin; [|done].
  destruct Hother as [Hm _]. unfold sorted_names. rewrite merge_sort_Permutation.
  apply Hnames. by exists Dir.
Qed.

Lemma find_steam_userdata_nothing (home : list string)
    (files : gmap (list string) Node) :
  files !! STEAM_USERDATA_BASE home = None
  \/ (files !! STEAM_USERDATA_BASE home = Some Dir
      /\ forall n, ~ qualifies files (STEAM_USERDATA_BASE home) n) ->
  find_steam_userdata home files = Ret None.
Proof.
  unfold find_steam_userdata, path_exists.
  set (base := STEAM_USERDATA_BASE home).
  intros [->|[Hbase Hnone]]; [done|]. rewrite Hbase. simpl.
  unfold iterdir. rewrite Hbase. simpl. f_equal.
  induction (sorted_names _) as [|n l IH]; [done|]. simpl.
  destruct (is_dir files (path_join base n) && PyStr.isdigit n) eqn:Htest; [|done].
  apply qualifies_test in Htest. by destruct (Hnone n).
Qed.

Section Startup.
Context {RT : Runtime}.

(** X21.  Without a Steam account directory (the userdata directory is
    missing, or it has no subdirectory with a numeric name) the window does
    not start: one error box is shown and the program exits with code 1,
    having created no directory, written no file and sent no request. *)
Theorem init_exits_without_account (home : list string) (w : World) :
  fs w !! STEAM_USERDATA_BASE home = None
  \/ (fs w !! STEAM_USERDATA_BASE home = Some Dir
      /\ forall n, ~ qualifies (fs w) (STEAM_USERDATA_BASE home) n) ->
  exists w' message,
    init home w = (Exited 1, w')
    /\ fs w' = fs w /\ requests w' = requests w
    /\ status_text w' = status_text w
    /\ dialogs w' = dialogs w ++ [("Steam userdata not found", message)].
Proof.
  intros Hnone. unfold init. rewrite (find_steam_userdata_nothing _ _ Hnone).
  by eexists _, _.
Qed.

(** X22.  When the window starts, it works on the account directory whose
    numeric name comes first; the shortcuts file and the artwork directory
    lie under that account's [config]; the artwork directory exists; no
    file that existed has changed and no request was sent; the list shows
    one line for each record of the shortcuts file, in order, and every
    record carries a canonical identifier. *)
Theorem init_started (home : list string) (w w' : World) (steamid : string)
    (userdata_path shortcuts_path grid_dir : list string) (self : Listing) :
  init home w
  = (Started steamid userdata_path shortcuts_path grid_dir self, w') ->
  (qualifies (fs w) (STEAM_USERDATA_BASE home) steamid
   /\ forall other, qualifies (fs w) (STEAM_USERDATA_BASE home) other ->
        String.le steamid other)
  /\ userdata_path = STEAM_USERDATA_BASE home ++ [steamid]
  /\ shortcuts_path = userdata_path ++ ["config"; "shortcuts.vdf"]
  /\ grid_dir = userdata_path ++ ["config"; "grid"]
  /\ fs w' !! grid_dir = Some Dir
  /\ fs w ⊆ fs w'
  /\ requests w' = requests w /\ dialogs w' = dialogs w
  /\ read_shortcuts (fs w') shortcuts_path = Ret (shortcuts self)
  /\ items self = item_text <$> shortcuts self
  /\ forall r, r ∈ shortcuts self -> canonical_id (appid r).
Proof.
  unfold init.
  destruct (find_steam_userdata home (fs w)) as [[[name p]|]|e] eqn:Hfind;
    [| |done].
  2: done.
  apply find_steam_userdata_found in Hfind as (Hp & Hq & Hmin).
  destruct name as [|c name'] eqn:Hname; [done|]. rewrite <- Hname in *.
  destruct (ensure_grid_dir p w) as [[gp|e] w1] eqn:Hgrid; [|done].
  apply ensure_grid_dir_spec in Hgrid
    as (Hgp & Hdir & Hsub & _ & (Hnet & Hst & Hdl) & Hreq).
  rewrite reload_shortcuts_spec. simpl.
  destruct (read_shortcuts (fs w1) _) as [loaded|e] eqn:Hread; [|done].
  intros [= <- <- <- <- <- <-]. simpl.
  split; [done|]. split; [done|].
  split; [by unfold path_join; rewrite <- app_assoc|].
  split; [by rewrite Hgp; unfold grid_path, path_join; rewrite <- app_assoc|].
  split; [done|]. split; [done|]. split; [done|]. split; [done|].
  split; [done|]. split; [done|].
  intros r Hr. by apply (read_shortcuts_records _ _ _ _ Hread Hr).
Qed.
End Startup.

(** * The further properties on the sample data *)

(** X1 at four bytes. *)
Lemma normalize_result_is_canonical_witness :
  normalize_appid_field (RT := sample_runtime) (VBytes [x01; x02; x03; x04])
  = Ret (Some "67305985")
  /\ canonical_id "67305985"
  /\ normalize_appid_field (RT := sample_runtime) (VStr "67305985")
     = Ret (Some "67305985").
Proof.
  assert (normalize_appid_field (RT := sample_runtime) (VBytes [x01; x02; x03; x04])
          = Ret (Some "67305985")) as H by (vm_compute; reflexivity).
  split; [exact H|].
  exact (normalize_result_is_canonical (RT := sample_runtime) _ _ H).
Defined.

(** X3 at a text with blanks, a sign and an underscore. *)
Lemma normalize_text_as_integer_witness :
  PyInt.of_text " -1_000 " = Ret (-1000)
  /\ normalize_appid_field (RT := sample_runtime) (VStr " -1_000 ")
     = normalize_appid_field (RT := sample_runtime) (VInt (-1000)).
Proof.
  assert (PyInt.of_text " -1_000 " = Ret (-1000)) as H by (vm_compute; reflexivity).
  split; [exact H|].
  exact (normalize_text_as_integer (RT := sample_runtime) _ _ H).
Defined.

(** X5 at the sample registry, and at the same registry with every key
    replaced by one and the same key. *)
Lemma read_entries_keeps_order_witness :
  let its := registry_items sample_registry in
  let rekeyed := (fun kv : Key * PyVal => (KBytes [], kv.2)) <$> its in
  read_entries (RT := sample_runtime) its [] = Ret sample_records
  /\ (exists ds, its.*2 = VDict <$> ds
        /\ sample_records = [] ++ omap (entry_of (RT := sample_runtime)) ds)
  /\ (exists new, sample_records = [] ++ new /\ sublist (raw <$> new) (its.*2))
  /\ read_entries (RT := sample_runtime) rekeyed [] = Ret sample_records.
Proof.
  intros its rekeyed.
  assert (read_entries (RT := sample_runtime) its [] = Ret sample_records) as H
    by (vm_compute; reflexivity).
  split; [exact H|].
  destruct (read_entries_keeps_order (RT := sample_runtime) its [] sample_records H)
    as (Hds & Hsub & Hkeys).
  split; [exact Hds|]. split; [exact Hsub|].
  apply Hkeys. vm_compute. reflexivity.
Defined.

(** X7 at the first record of the sample shortcuts file. *)
Lemma read_shortcuts_records_canonical_witness :
  let path := sample_config ++ ["shortcuts.vdf"] in
  let r := {| appid := "3000000000"; AppName := "Alpha"; Exe := "/opt/alpha";
              raw := VDict [(KStr "appid", VInt (-1294967296));
                            (KStr "AppName", VStr "Alpha");
                            (KStr "Exe", VStr "/opt/alpha")] |} in
  read_shortcuts (RT := sample_runtime) sample_fs path = Ret sample_records
  /\ r ∈ sample_records
  /\ canonical_id (appid r) /\ is_dict (raw r)
  /\ exists content data registry d,
       sample_fs !! path = Some (File content)
       /\ vdf_binary_load (Runtime := sample_runtime) content = Ret data
       /\ shortcuts_of data = Ret (VDict registry)
       /\ VDict d ∈ registry.*2
       /\ raw r = VDict d
       /\ normalize_appid_field (RT := sample_runtime) (lookup_chain d "appid")
          = Ret (Some (appid r))
       /\ AppName r = field_text (RT := sample_runtime)
                        (py_or (lookup_chain d "AppName") (VBytes []))
       /\ Exe r = field_text (RT := sample_runtime)
                    (py_or (lookup_chain d "Exe") (VBytes [])).
Proof.
  intros path r.
  assert (read_shortcuts (RT := sample_runtime) sample_fs path = Ret sample_records)
    as H by (vm_compute; reflexivity).
  assert (r ∈ sample_records) as Hr by (vm_compute; apply list_elem_of_here).
  split; [exact H|]. split; [exact Hr|].
  exact (read_shortcuts_records_canonical (RT := sample_runtime) _ _ _ _ H Hr).
Defined.

(** X8 at a transfer that breaks after two bytes. *)
Lemma broken_transfer_leaves_partial_file_witness :
  let dest := sample_grid ++ ["3000000000p.jpg"] in
  exists w',
    download_to_file "https://example.invalid/cover.jpg" dest interrupted_world
    = (Ret false, w')
    /\ fs w' = <[dest := File (concat [[x01; x02]])]> (fs interrupted_world).
Proof.
  intros dest.
  apply (broken_transfer_leaves_partial_file "https://example.invalid/cover.jpg" dest
           interrupted_world
           {| status_code := 200; chunks := [[x01; x02]];
              broken := Some ChunkedEncodingError |} ChunkedEncodingError).
  - reflexivity.
  - reflexivity.
  - reflexivity.
  - eexists. apply open_for_writing_writable. vm_compute. reflexivity.
Defined.

(** X9: downloading the logo leaves the side file of 271590 alone. *)
Lemma download_to_file_frame_witness :
  let dest := sample_grid ++ ["3000000000_logo.png"] in
  let p := sample_grid ++ ["271590.json"] in
  p <> dest
  /\ exists ok w',
       download_to_file (cdn_url "271590" "logo.png") dest sample_world = (Ret ok, w')
       /\ fs w' !! p = fs sample_world !! p
       /\ same_but_files sample_world w'.
Proof.
  intros dest p.
  assert (p <> dest) as H by (intros Heq; vm_compute in Heq; discriminate Heq).
  split; [exact H|].
  exact (download_to_file_frame (cdn_url "271590" "logo.png") dest p sample_world H).
Defined.

(** X11: writing the side file of 3000000000 leaves the one of 271590
    alone. *)
Lemma copy_or_write_json_frame_witness :
  let dst := path_join sample_grid "3000000000.json" in
  let p := sample_grid ++ ["271590.json"] in
  p <> dst /\ p <> path_join dst "271590.json"
  /\ exists status w',
       copy_or_write_json_for_target (RT := sample_runtime)
         sample_grid "271590" "3000000000" sample_world
       = (Ret status, w')
       /\ fs w' !! p = fs sample_world !! p
       /\ same_but_files sample_world w'.
Proof.
  intros dst p.
  assert (p <> dst) as H1 by (intros Heq; vm_compute in Heq; discriminate Heq).
  assert (p <> path_join dst "271590.json") as H2
    by (intros Heq; vm_compute in Heq; discriminate Heq).
  split; [exact H1|]. split; [exact H2|].
  exact (copy_or_write_json_frame (RT := sample_runtime)
           sample_grid "271590" "3000000000" sample_world p H1 H2).
Defined.

(** X12 at an account that has no [config] directory yet: two directories
    are made. *)
Lemma ensure_grid_dir_creates_only_directories_witness :
  let gp := grid_path fresh_account in
  let w' := set_fs (<[gp := Dir]> (<[path_join fresh_account "config" := Dir]>
                                     (fs sample_world))) sample_world in
  ensure_grid_dir fresh_account sample_world = (Ret gp, w')
  /\ fs w' !! gp = Some Dir
  /\ fs sample_world ⊆ fs w'
  /\ (forall q, fs sample_world !! q = None -> is_Some (fs w' !! q) ->
        fs w' !! q = Some Dir /\ ancestor_or_self q gp).
Proof.
  intros gp w'.
  assert (ensure_grid_dir fresh_account sample_world = (Ret gp, w')) as H.
  { rewrite (ensure_grid_dir_cases fresh_account sample_world)
      by (vm_compute; reflexivity).
    replace (fs sample_world !! grid_path fresh_account) with (@None Node)
      by (vm_compute; reflexivity).
    replace (fs sample_world !! path_join fresh_account "config") with (@None Node)
      by (vm_compute; reflexivity).
    reflexivity. }
  split; [exact H|].
  destruct (ensure_grid_dir_creates_only_directories fresh_account sample_world w' gp H)
    as (_ & Hdir & Hsub & Hnew & _).
  split; [exact Hdir|]. split; [exact Hsub|]. exact Hnew.
Defined.

(** X13 at the same account. *)
Lemma ensure_grid_dir_twice_witness :
  let gp := grid_path fresh_account in
  let w' := set_fs (<[gp := Dir]> (<[path_join fresh_account "config" := Dir]>
                                     (fs sample_world))) sample_world in
  ensure_grid_dir fresh_account sample_world = (Ret gp, w')
  /\ ensure_grid_dir fresh_account w' = (Ret gp, w').
Proof.
  intros gp w'.
  assert (ensure_grid_dir fresh_account sample_world = (Ret gp, w')) as H.
  { rewrite (ensure_grid_dir_cases fresh_account sample_world)
      by (vm_compute; reflexivity).
    replace (fs sample_world !! grid_path fresh_account) with (@None Node)
      by (vm_compute; reflexivity).
    replace (fs sample_world !! path_join fresh_account "config") with (@None Node)
      by (vm_compute; reflexivity).
    reflexivity. }
  split; [exact H|].
  exact (ensure_grid_dir_twice fresh_account sample_world w' gp H).
Defined.

(** X14 at the same account: neither [config] nor [grid] exists. *)
Lemma ensure_grid_dir_outcomes_witness :
  fs sample_world !! fresh_account = Some Dir
  /\ fs sample_world !! grid_path fresh_account = None
  /\ fs sample_world !! path_join fresh_account "config" = None
  /\ ensure_grid_dir fresh_account sample_world
     = (Ret (grid_path fresh_account),
        set_fs (<[grid_path fresh_account := Dir]>
                  (<[path_join fresh_account "config" := Dir]> (fs sample_world)))
          sample_world).
Proof.
  assert (fs sample_world !! fresh_account = Some Dir) as H by (vm_compute; reflexivity).
  assert (fs sample_world !! grid_path fresh_account = None) as Hg
    by (vm_compute; reflexivity).
  assert (fs sample_world !! path_join fresh_account "config" = None) as Hc
    by (vm_compute; reflexivity).
  split; [exact H|]. split; [exact Hg|]. split; [exact Hc|].
  pose proof (ensure_grid_dir_outcomes fresh_account sample_world H) as Hrun.
  cbv zeta in Hrun. rewrite Hg, Hc in Hrun. exact Hrun.
Defined.

(** X15 at the sample window, with blanks around the identifier. *)
Lemma on_apply_marks_are_independent_witness :
  let self := sample_window " 271590 " in
  exists w' json_result,
    on_apply (RT := sample_runtime) self sample_world = (Ret tt, w')
    /\ json_result ∈ ["JSON copied"; "JSON written (default)"; "JSON failed"]
    /\ status_text w'
       = (join "  |  "
            (asset_marks sample_world sample_grid "271590" "3000000000"
               ++ [json_result])
          +:+ String "010" "Saved to: " +:+ path_text sample_grid)
         +:+ String "010"
               "Tip: Quit & relaunch Steam to pick up artwork (or clear Steam cache).".
Proof.
  intros self.
  apply (on_apply_marks_are_independent (RT := sample_runtime) self sample_world
           sample_entry).
  - vm_compute. discriminate.
  - reflexivity.
  - vm_compute. reflexivity.
Defined.

(** X16: applying to the shortcut 3000000000 leaves the side file of the
    source alone. *)
Lemma on_apply_touches_only_its_targets_witness :
  let self := sample_window " 271590 " in
  let p := sample_grid ++ ["271590.json"] in
  (p ∉ apply_paths sample_grid "271590" "3000000000")
  /\ exists w',
       on_apply (RT := sample_runtime) self sample_world = (Ret tt, w')
       /\ fs w' !! p = fs sample_world !! p
       /\ dialogs w' = dialogs sample_world.
Proof.
  intros self p.
  assert (p ∉ apply_paths sample_grid "271590" "3000000000") as Hp
    by (apply (bool_decide_unpack _); vm_compute; exact I).
  split; [exact Hp|].
  apply (on_apply_touches_only_its_targets (RT := sample_runtime) self sample_world
           sample_entry p).
  - vm_compute. discriminate.
  - reflexivity.
  - vm_compute. reflexivity.
  - exact Hp.
Defined.

(** X18 at the sample window. *)
Lemma on_apply_sends_four_requests_witness :
  exists w',
    on_apply (RT := sample_runtime) (sample_window " 271590 ") sample_world
    = (Ret tt, w')
    /\ requests w'
       = requests sample_world
         ++ map (fun name =>
                   "https://steamcdn-a.akamaihd.net/steam/apps/"
                   +:+ PyStr.strip " 271590 " +:+ "/" +:+ name)
              ["library_600x900_2x.jpg"; "library_411x184.jpg";
               "library_hero.jpg"; "logo.png"].
Proof.
  apply (on_apply_sends_four_requests (RT := sample_runtime)
           (sample_window " 271590 ") sample_world sample_entry).
  - vm_compute. discriminate.
  - reflexivity.
  - vm_compute. reflexivity.
Defined.

(** X20: the sample shortcuts file gives three lines; the last one is row
    2. *)
Lemma reload_then_apply_never_raises_witness :
  let reloaded :=
    (reload_shortcuts (RT := sample_runtime) (sample_config ++ ["shortcuts.vdf"])
       {| shortcuts := []; items := [] |} sample_world).1.2 in
  2 < Z.of_nat (length (items reloaded))
  /\ exists w',
       on_apply (RT := sample_runtime) (window_of reloaded sample_grid 2 "271590")
         sample_world
       = (Ret tt, w').
Proof.
  intros reloaded.
  assert (2 < Z.of_nat (length (items reloaded))) as H by (vm_compute; reflexivity).
  split; [exact H|].
  exact (reload_then_apply_never_raises (RT := sample_runtime)
           (sample_config ++ ["shortcuts.vdf"]) sample_grid
           {| shortcuts := []; items := [] |} sample_world sample_world 2 "271590" H).
Defined.

(** X21 at a home directory without Steam. *)
Lemma init_exits_without_account_witness :
  fs sample_world !! STEAM_USERDATA_BASE ["nobody"] = None
  /\ exists w' message,
       init (RT := sample_runtime) ["nobody"] sample_world = (Exited 1, w')
       /\ fs w' = fs sample_world /\ requests w' = requests sample_world
       /\ status_text w' = status_text sample_world
       /\ dialogs w' = dialogs sample_world ++ [("Steam userdata not found", message)].
Proof.
  assert (fs sample_world !! STEAM_USERDATA_BASE ["nobody"] = None) as H
    by (vm_compute; reflexivity).
  split; [exact H|].
  exact (init_exits_without_account (RT := sample_runtime) ["nobody"] sample_world
           (or_introl H)).
Defined.

(** X22 at the sample world: the account 10 is chosen, before 9. *)
Lemma init_started_witness :
  let u := sample_userdata ++ ["10"] in
  let self := {| shortcuts := sample_records; items := item_text <$> sample_records |} in
  exists w',
    init (RT := sample_runtime) sample_home sample_world
    = (Started "10" u (path_join (path_join u "config") "shortcuts.vdf")
         (grid_path u) self, w')
    /\ qualifies (fs sample_world) sample_userdata "10"
    /\ fs w' !! grid_path u = Some Dir
    /\ requests w' = requests sample_world
    /\ forall r, r ∈ sample_records -> canonical_id (appid r).
Proof.
  intros u self.
  set (sp := path_join (path_join u "config") "shortcuts.vdf").
  set (w' := set_status
               ("Loaded " +:+ PyInt.to_text (Z.of_nat (length sample_records))
                +:+ " shortcuts from " +:+ path_text sp)
               (set_status EmptyString sample_world)).
  assert (init (RT := sample_runtime) sample_home sample_world
          = (Started "10" u sp (grid_path u) self, w')) as H.
  { unfold init.
    replace (find_steam_userdata sample_home (fs sample_world))
      with (Ret (Some ("10", u)) : Outcome (option (string * list string)))
      by (vm_compute; reflexivity).
    cbv beta iota zeta.
    rewrite (ensure_grid_dir_cases u sample_world) by (vm_compute; reflexivity).
    replace (fs sample_world !! grid_path u) with (Some Dir)
      by (vm_compute; reflexivity).
    rewrite reload_shortcuts_spec.
    replace (read_shortcuts (fs (set_status EmptyString sample_world))
               (path_join (path_join u "config") "shortcuts.vdf"))
      with (Ret sample_records : Outcome (list ShortcutEntry))
      by (vm_compute; reflexivity).
    reflexivity. }
  exists w'. split; [exact H|].
  destruct (init_started (RT := sample_runtime) sample_home sample_world w' "10" u sp
              (grid_path u) self H)
    as ((Hq & _) & _ & _ & Hg & Hdir & _ & Hreq & _ & _ & _ & Hcanon).
  split; [exact Hq|]. split; [by rewrite Hg|]. split; [exact Hreq|]. exact Hcanon.
Defined.
